(** * pew: ignore patterns, content sniffing and the directory walk of [main.go]

    A shallow embedding of the decision logic of [main.go]: the gitignore-style
    matcher [matchesGitIgnorePattern], the ignore-set resolver
    [getIgnorePatterns] / [readPewcFile], the membership test [isPathIgnored],
    the content classifier [isBinaryContent] / [verifyTextContent] /
    [isTextFile] and the traversal [collectTextFiles].

    Go strings are byte strings: they are embedded as [string], one [ascii]
    per byte.  [[]byte] is embedded as [list byte].  The program is built for
    darwin and linux only ([build.sh]), so the path separator is ['/'] and the
    backslash is the escape character of [filepath.Match]. *)

From Stdlib Require Import String Ascii List Bool Arith NArith ZArith Lia.
From Stdlib Require Import Permutation Sorted.
From Stdlib Require Import Strings.Byte.
From Stdlib Require PrimFloat Uint63.
Import ListNotations.
Local Open Scope string_scope.
Local Open Scope bool_scope.

(** ** Byte slicing of Go strings *)

(** [s[n:]] *)
Fixpoint sliceFrom (n : nat) (s : string) : string :=
  match n, s with
  | O, _ => s
  | S _, "" => ""
  | S k, String _ s' => sliceFrom k s'
  end.

(** [s[:n]] *)
Fixpoint sliceTo (n : nat) (s : string) : string :=
  match n, s with
  | O, _ => ""
  | S _, "" => ""
  | S k, String c s' => String c (sliceTo k s')
  end.

(** The numeric value of a byte. *)
Definition byteN (c : ascii) : N := N_of_ascii c.

(** ** Package [unicode/utf8] *)
Module Utf8.

Definition RuneError : N := 65533.
Definition RuneSelf : N := 128.
Definition UTFMax : nat := 4.

(** The [first] table together with [acceptRanges]: for a leading byte of a
    multi-byte sequence, the sequence length and the range accepted for the
    second byte; [None] for the bytes marked [xx] (invalid). *)
Definition first (b0 : N) : option (nat * N * N) :=
  if (b0 <? 194)%N then None
  else if (b0 <=? 223)%N then Some (2, 128%N, 191%N)
  else if (b0 =? 224)%N then Some (3, 160%N, 191%N)
  else if (b0 <=? 236)%N then Some (3, 128%N, 191%N)
  else if (b0 =? 237)%N then Some (3, 128%N, 159%N)
  else if (b0 <=? 239)%N then Some (3, 128%N, 191%N)
  else if (b0 =? 240)%N then Some (4, 144%N, 191%N)
  else if (b0 <=? 243)%N then Some (4, 128%N, 191%N)
  else if (b0 =? 244)%N then Some (4, 128%N, 143%N)
  else None.

Definition outside (lo hi : N) (c : ascii) : bool :=
  (byteN c <? lo)%N || (hi <? byteN c)%N.

Definition low6 (c : ascii) : N := N.land (byteN c) 63.

(** [utf8.DecodeRuneInString]: the rune at the front of [s] and its width in
    bytes; [(RuneError, 0)] on the empty string and [(RuneError, 1)] on an
    invalid encoding. *)
Definition DecodeRuneInString (s : string) : N * nat :=
  match s with
  | "" => (RuneError, 0)
  | String c0 t1 =>
    let b0 := byteN c0 in
    if (b0 <? RuneSelf)%N then (b0, 1)
    else
      match first b0 with
      | None => (RuneError, 1)
      | Some (sz, lo, hi) =>
        match t1 with
        | "" => (RuneError, 1)
        | String c1 t2 =>
          if outside lo hi c1 then (RuneError, 1)
          else if (sz <=? 2)%nat then
            (N.lor (N.shiftl (N.land b0 31) 6) (low6 c1), 2)
          else
            match t2 with
            | "" => (RuneError, 1)
            | String c2 t3 =>
              if outside 128 191 c2 then (RuneError, 1)
              else if (sz <=? 3)%nat then
                (N.lor (N.shiftl (N.land b0 15) 12)
                   (N.lor (N.shiftl (low6 c1) 6) (low6 c2)), 3)
              else
                match t3 with
                | "" => (RuneError, 1)
                | String c3 _ =>
                  if outside 128 191 c3 then (RuneError, 1)
                  else
                    (N.lor (N.shiftl (N.land b0 7) 18)
                       (N.lor (N.shiftl (low6 c1) 12)
                          (N.lor (N.shiftl (low6 c2) 6) (low6 c3))), 4)
                end
            end
        end
      end
  end.

(** [utf8.RuneStart] *)
Definition RuneStart (c : ascii) : bool :=
  negb (N.land (byteN c) 192 =? 128)%N.

Definition byteAt (s : string) (i : Z) : ascii :=
  match String.get (Z.to_nat i) s with
  | Some c => c
  | None => Ascii.zero
  end.

(** The backward search of [DecodeLastRuneInString] for the start of the
    last rune: [for start--; start >= lim; start--], left at the first byte
    that starts a rune.  It runs at most [UTFMax] times. *)
Fixpoint lastStart (fuel : nat) (s : string) (lim start : Z) : Z :=
  match fuel with
  | O => start
  | S fuel' =>
    if (start <? lim)%Z then start
    else if RuneStart (byteAt s start) then start
    else lastStart fuel' s lim (start - 1)%Z
  end.

(** [utf8.DecodeLastRuneInString] *)
Definition DecodeLastRuneInString (s : string) : N * nat :=
  let e := Z.of_nat (String.length s) in
  if (e =? 0)%Z then (RuneError, 0)
  else
    let r := byteN (byteAt s (e - 1)) in
    if (r <? RuneSelf)%N then (r, 1)
    else
      let lim := Z.max 0 (e - Z.of_nat UTFMax) in
      let start := lastStart UTFMax s lim (e - 2) in
      let start := if (start <? 0)%Z then 0%Z else start in
      let '(r, size) := DecodeRuneInString (sliceFrom (Z.to_nat start) s) in
      if (start + Z.of_nat size =? e)%Z then (r, size) else (RuneError, 1).

End Utf8.

(** ** Package [strings] *)
Module Strings.

(** [strings.HasPrefix] *)
Definition HasPrefix (s prefix : string) : bool :=
  (String.length prefix <=? String.length s)%nat
  && String.eqb (sliceTo (String.length prefix) s) prefix.

(** [strings.HasSuffix] *)
Definition HasSuffix (s suffix : string) : bool :=
  (String.length suffix <=? String.length s)%nat
  && String.eqb (sliceFrom (String.length s - String.length suffix) s) suffix.

(** [strings.TrimSuffix] *)
Definition TrimSuffix (s suffix : string) : string :=
  if HasSuffix s suffix
  then sliceTo (String.length s - String.length suffix) s
  else s.

(** [strings.Contains]: [substr] occurs at some byte offset of [s]. *)
Fixpoint Contains (s substr : string) : bool :=
  HasPrefix s substr
  || match s with
     | "" => false
     | String _ s' => Contains s' substr
     end.

(** The scan of [strings.ReplaceAll]: [skip] counts the bytes of a matched
    occurrence of [old] that are still to be dropped. *)
Fixpoint replaceScan (old new : string) (skip : nat) (s : string) : string :=
  match s with
  | "" => ""
  | String c s' =>
    match skip with
    | S k => replaceScan old new k s'
    | O =>
      if HasPrefix s old
      then new ++ replaceScan old new (String.length old - 1) s'
      else String c (replaceScan old new 0 s')
    end
  end.

(** [strings.ReplaceAll] for a non-empty [old] (the program passes the
    one-byte strings ["."], ["*"] and ["?"]): every non-overlapping occurrence
    of [old], found from left to right, is replaced by [new]. *)
Definition ReplaceAll (s old new : string) : string :=
  replaceScan old new 0 s.

Definition consFirst (c : ascii) (parts : list string) : list string :=
  match parts with
  | [] => [String c ""]
  | p :: ps => String c p :: ps
  end.

(** The scan of [strings.Split]: [skip] counts the bytes of a matched
    separator that are still to be dropped. *)
Fixpoint splitScan (sep : string) (skip : nat) (s : string) : list string :=
  match s with
  | "" => [""]
  | String c s' =>
    match skip with
    | S k => splitScan sep k s'
    | O =>
      if HasPrefix s sep
      then "" :: splitScan sep (String.length sep - 1) s'
      else consFirst c (splitScan sep 0 s')
    end
  end.

(** [strings.Split] for a non-empty separator (the program passes the
    one-byte strings ["/"] and the line feed): the pieces of [s] between the
    non-overlapping occurrences of [sep], one more than there are
    occurrences. *)
Definition Split (s sep : string) : list string :=
  splitScan sep 0 s.

(** [unicode.IsSpace] *)
Definition IsSpace (r : N) : bool :=
  if (r <=? 255)%N then
    ((9 <=? r)%N && (r <=? 13)%N) || (r =? 32)%N || (r =? 133)%N || (r =? 160)%N
  else
    (r =? 5760)%N || ((8192 <=? r)%N && (r <=? 8202)%N) || (r =? 8232)%N
    || (r =? 8233)%N || (r =? 8239)%N || (r =? 8287)%N || (r =? 12288)%N.

(** The table [asciiSpace]. *)
Definition asciiSpace (c : ascii) : bool :=
  ((9 <=? byteN c)%N && (byteN c <=? 13)%N) || (byteN c =? 32)%N.

(** [strings.TrimLeftFunc]: [skip] counts the bytes of the current rune that
    are still to be dropped. *)
Fixpoint trimLeftScan (f : N -> bool) (skip : nat) (s : string) : string :=
  match s with
  | "" => ""
  | String _ s' =>
    match skip with
    | S k => trimLeftScan f k s'
    | O =>
      let '(r, w) := Utf8.DecodeRuneInString s in
      if f r then trimLeftScan f (w - 1) s' else s
    end
  end.

Definition TrimLeftFunc (s : string) (f : N -> bool) : string :=
  trimLeftScan f 0 s.

(** [lastIndexFunc(s, f, false)]: the offset of the last rune of [s[:i]]
    that does not satisfy [f], or [-1]. *)
Fixpoint lastIndexFunc (fuel : nat) (f : N -> bool) (s : string) (i : nat) : Z :=
  match fuel with
  | O => (-1)%Z
  | S fuel' =>
    if (i =? 0)%nat then (-1)%Z
    else
      let '(r, size) := Utf8.DecodeLastRuneInString (sliceTo i s) in
      let i := i - size in
      if f r then lastIndexFunc fuel' f s i else Z.of_nat i
  end.

(** [strings.TrimRightFunc] *)
Definition TrimRightFunc (s : string) (f : N -> bool) : string :=
  let i := lastIndexFunc (S (String.length s)) f s (String.length s) in
  let i :=
    if (0 <=? i)%Z && (Utf8.RuneSelf <=? byteN (Utf8.byteAt s i))%N
    then (i + Z.of_nat (snd (Utf8.DecodeRuneInString (sliceFrom (Z.to_nat i) s))))%Z
    else (i + 1)%Z in
  sliceTo (Z.to_nat i) s.

(** [strings.TrimFunc] *)
Definition TrimFunc (s : string) (f : N -> bool) : string :=
  TrimRightFunc (TrimLeftFunc s f) f.

(** The second loop of [strings.TrimSpace], over the reversed bytes of
    [s[start:]]. *)
Fixpoint trimSpaceStop (r : list ascii) : string :=
  match r with
  | [] => ""
  | c :: r' =>
    if (Utf8.RuneSelf <=? byteN c)%N
    then TrimRightFunc (string_of_list_ascii (rev r)) IsSpace
    else if asciiSpace c then trimSpaceStop r'
    else string_of_list_ascii (rev r)
  end.

(** [strings.TrimSpace]: the first loop drops leading ASCII white space and
    hands over to the rune-aware functions at the first non-ASCII byte. *)
Fixpoint TrimSpace (s : string) : string :=
  match s with
  | "" => ""
  | String c s' =>
    if (Utf8.RuneSelf <=? byteN c)%N then TrimFunc s IsSpace
    else if asciiSpace c then TrimSpace s'
    else trimSpaceStop (rev (list_ascii_of_string s))
  end.

End Strings.

(** ** Package [path/filepath] (Unix) *)
Module Filepath.

Definition Separator : ascii := "/"%char.

(** [filepath.ToSlash]: the separator already is the slash. *)
Definition ToSlash (path : string) : string := path.

Fixpoint dropSeparators (l : list ascii) : list ascii :=
  match l with
  | c :: l' => if Ascii.eqb c Separator then dropSeparators l' else l
  | [] => []
  end.

Fixpoint upToSeparator (l : list ascii) : list ascii :=
  match l with
  | c :: l' => if Ascii.eqb c Separator then [] else c :: upToSeparator l'
  | [] => []
  end.

(** [filepath.Base]: the last element of [path], trailing separators
    removed; ["."] for the empty path, ["/"] for a path of separators only.
    The two backward loops of the source run over the reversed bytes. *)
Definition Base (path : string) : string :=
  if String.eqb path "" then "."
  else
    let r := dropSeparators (rev (list_ascii_of_string path)) in
    let elem := string_of_list_ascii (rev (upToSeparator r)) in
    if String.eqb elem "" then "/" else elem.

Fixpoint extScan (l : list ascii) (acc : list ascii) : string :=
  match l with
  | [] => ""
  | c :: l' =>
    if Ascii.eqb c Separator then ""
    else if Ascii.eqb c "."%char then string_of_list_ascii (c :: acc)
    else extScan l' (c :: acc)
  end.

(** [filepath.Ext]: the suffix of the last element of [path] that starts at
    its final dot; empty when there is no dot. *)
Definition Ext (path : string) : string :=
  extScan (rev (list_ascii_of_string path)) [].

(** *** [filepath.Match] *)

(** The result pair [(matched, err)] of [Match]; the only error is
    [ErrBadPattern], and [matched] is [false] with it. *)
Inductive MatchResult : Type :=
| MatchOk (matched : bool)
| ErrBadPattern.

(** The result triple [(rest, ok, err)] of [matchChunk]. *)
Inductive ChunkResult : Type :=
| ChunkBad
| ChunkFailed
| ChunkRest (rest : string).

(** The first loop of [scanChunk]: leading stars are dropped. *)
Fixpoint dropStars (pattern : string) : bool * string :=
  match pattern with
  | "" => (false, pattern)
  | String c p' =>
    if Ascii.eqb c "*"%char then (true, snd (dropStars p')) else (false, pattern)
  end.

(** The [Scan] loop of [scanChunk]: the chunk runs up to the first star
    outside a bracket expression; a backslash protects the next byte. *)
Fixpoint scanBody (inrange : bool) (pattern : string) : string * string :=
  match pattern with
  | "" => ("", "")
  | String c p' =>
    if Ascii.eqb c "\"%char then
      match p' with
      | "" => (pattern, "")
      | String d p'' =>
        let '(chunk, rest) := scanBody inrange p'' in
        (String c (String d chunk), rest)
      end
    else if Ascii.eqb c "["%char then
      let '(chunk, rest) := scanBody true p' in (String c chunk, rest)
    else if Ascii.eqb c "]"%char then
      let '(chunk, rest) := scanBody false p' in (String c chunk, rest)
    else if Ascii.eqb c "*"%char then
      if inrange
      then let '(chunk, rest) := scanBody inrange p' in (String c chunk, rest)
      else ("", pattern)
    else
      let '(chunk, rest) := scanBody inrange p' in (String c chunk, rest)
  end.

(** [scanChunk]: [(star, chunk, rest)]. *)
Definition scanChunk (pattern : string) : bool * string * string :=
  let '(star, p) := dropStars pattern in
  let '(chunk, rest) := scanBody false p in
  (star, chunk, rest).

(** [len(s) > 0 && s[0] == c] *)
Definition startsWith (c : ascii) (s : string) : bool :=
  match s with
  | "" => false
  | String d _ => Ascii.eqb d c
  end.

(** [getEsc]: a possibly escaped rune of a bracket expression and the chunk
    after it; [None] is [ErrBadPattern]. *)
Definition getEsc (chunk : string) : option (N * string) :=
  match chunk with
  | "" => None
  | String c chunk' =>
    if Ascii.eqb c "-"%char || Ascii.eqb c "]"%char then None
    else
      let body := if Ascii.eqb c "\"%char then chunk' else chunk in
      match body with
      | "" => None
      | _ =>
        let '(r, n) := Utf8.DecodeRuneInString body in
        if (r =? Utf8.RuneError)%N && (n =? 1)%nat then None
        else
          let nchunk := sliceFrom n body in
          match nchunk with
          | "" => None
          | _ => Some (r, nchunk)
          end
      end
  end.

(** The loop that parses the ranges of a bracket expression against the rune
    [r]: [Some (match, chunk)] at the closing bracket, [None] on a bad
    pattern.  Every turn consumes at least one byte of [chunk]. *)
Fixpoint classLoop (fuel : nat) (chunk : string) (r : N) (mtch : bool)
    (nrange : nat) : option (bool * string) :=
  match fuel with
  | O => None
  | S fuel' =>
    let range :=
      match getEsc chunk with
      | None => None
      | Some (lo, chunk1) =>
        if startsWith "-"%char chunk1 then
          match getEsc (sliceFrom 1 chunk1) with
          | None => None
          | Some (hi, chunk3) =>
            classLoop fuel' chunk3 r (mtch || (lo <=? r)%N && (r <=? hi)%N)
              (S nrange)
          end
        else
          classLoop fuel' chunk1 r (mtch || (lo <=? r)%N && (r <=? lo)%N)
            (S nrange)
      end in
    if startsWith "]"%char chunk && (0 <? nrange)%nat
    then Some (mtch, sliceFrom 1 chunk)
    else range
  end.

(** The loop of [matchChunk]: once [failed] is set the chunk is still
    checked for well-formedness but [s] is no longer read. *)
Fixpoint matchChunkLoop (fuel : nat) (chunk s : string) (failed : bool)
    : ChunkResult :=
  match fuel with
  | O => ChunkBad
  | S fuel' =>
    match chunk with
    | "" => if failed then ChunkFailed else ChunkRest s
    | String c chunk1 =>
      let failed := failed || (String.length s =? 0)%nat in
      let literal (c' : ascii) (chunk' : string) :=
        if failed then matchChunkLoop fuel' chunk' s failed
        else
          match s with
          | String d s' => matchChunkLoop fuel' chunk' s' (negb (Ascii.eqb c' d))
          | "" => matchChunkLoop fuel' chunk' s true
          end in
      if Ascii.eqb c "["%char then
        let '(r, s1) :=
          if failed then (0%N, s)
          else let '(r, n) := Utf8.DecodeRuneInString s in (r, sliceFrom n s) in
        let negated := startsWith "^"%char chunk1 in
        let chunk2 := if negated then sliceFrom 1 chunk1 else chunk1 in
        match classLoop (S (String.length chunk2)) chunk2 r false 0 with
        | None => ChunkBad
        | Some (mtch, chunk3) =>
          matchChunkLoop fuel' chunk3 s1 (failed || Bool.eqb mtch negated)
        end
      else if Ascii.eqb c "?"%char then
        if failed then matchChunkLoop fuel' chunk1 s failed
        else
          match s with
          | String d _ =>
            matchChunkLoop fuel' chunk1
              (sliceFrom (snd (Utf8.DecodeRuneInString s)) s)
              (Ascii.eqb d Separator)
          | "" => matchChunkLoop fuel' chunk1 s true
          end
      else if Ascii.eqb c "\"%char then
        match chunk1 with
        | "" => ChunkBad
        | String c' chunk2 => literal c' chunk2
        end
      else literal c chunk1
    end
  end.

(** [matchChunk] *)
Definition matchChunk (chunk s : string) : ChunkResult :=
  matchChunkLoop (S (String.length chunk)) chunk s false.

(** The inner loop of [Match] after a star: the chunk is tried after
    skipping [i+1] bytes of [name], never skipping a separator; [k] is the
    continuation [continue Pattern] with the new [name]. *)
Fixpoint starLoop (k : string -> MatchResult) (chunk : string)
    (lastChunk : bool) (name : string) : MatchResult :=
  match name with
  | "" => MatchOk false
  | String c name' =>
    if Ascii.eqb c Separator then MatchOk false
    else
      match matchChunk chunk name' with
      | ChunkRest t =>
        if lastChunk && negb (String.length t =? 0)%nat
        then starLoop k chunk lastChunk name'
        else k t
      | ChunkBad => ErrBadPattern
      | ChunkFailed => starLoop k chunk lastChunk name'
      end
  end.

(** The [Pattern] loop of [Match]; every turn consumes at least one byte of
    [pattern]. *)
Fixpoint matchLoop (fuel : nat) (pattern name : string) : MatchResult :=
  match fuel with
  | O => MatchOk false
  | S fuel' =>
    match pattern with
    | "" => MatchOk (String.length name =? 0)%nat
    | _ =>
      let '(star, chunk, rest) := scanChunk pattern in
      if star && String.eqb chunk "" then
        MatchOk (negb (Strings.Contains name (String Separator "")))
      else
        let lastChunk := (String.length rest =? 0)%nat in
        let retry (bad : bool) :=
          if bad then ErrBadPattern
          else if star then starLoop (matchLoop fuel' rest) chunk lastChunk name
          else MatchOk false in
        match matchChunk chunk name with
        | ChunkRest t =>
          if (String.length t =? 0)%nat || negb lastChunk
          then matchLoop fuel' rest t
          else retry false
        | ChunkBad => retry true
        | ChunkFailed => retry false
        end
    end
  end.

(** [filepath.Match] *)
Definition Match (pattern name : string) : MatchResult :=
  matchLoop (S (String.length pattern)) pattern name.

Definition matched (r : MatchResult) : bool :=
  match r with
  | MatchOk b => b
  | ErrBadPattern => false
  end.

End Filepath.
Import Strings Filepath.

(** ** The operating system as the program sees it *)

(** Errors reported by the [os] package; [os.IsNotExist] tells the first
    from the rest. *)
Inductive OsError : Type :=
| NotExist (text : string)
| OtherOsError (text : string).

(** Go [error] values the program handles; [nil] is [None] of
    [option error]. *)
Inductive error : Type :=
| OfOs (e : OsError)
| EOF
| SkipDir
| Errorf (msg : string) (cause : error).

Definition IsNotExist (e : OsError) : bool :=
  match e with
  | NotExist _ => true
  | OtherOsError _ => false
  end.

(** [err.Error()] *)
Fixpoint errorText (e : error) : string :=
  match e with
  | OfOs (NotExist text) => text
  | OfOs (OtherOsError text) => text
  | EOF => "EOF"
  | SkipDir => "skip this directory"
  | Errorf msg cause => msg ++ ": " ++ errorText cause
  end.

Definition isSkipDir (e : error) : bool :=
  match e with
  | SkipDir => true
  | _ => false
  end.

Definition isEOF (e : error) : bool :=
  match e with
  | EOF => true
  | _ => false
  end.

Record FileInfo : Type := { IsDir : bool }.

(** An open file: the bytes it holds, or the error its [Read] reports. *)
Inductive File : Type :=
| Readable (content : list byte)
| Unreadable (e : OsError).

(** [file.Read(buf)] on a fresh handle with [len(buf) = size]: the bytes
    copied into [buf] and the error; end of file is reported as [EOF] with no
    bytes. *)
Definition Read (f : File) (size : nat) : list byte * option error :=
  match f with
  | Unreadable e => ([], Some (OfOs e))
  | Readable [] => ([], Some EOF)
  | Readable content => (firstn size content, None)
  end.

(** The system calls of the program, as functions of the path.  [Stat]
    resolves a relative path against the working directory of the process. *)
Record OS : Type := {
  Stat : string -> OsError + FileInfo;
  Open : string -> OsError + File;
  ReadFile : string -> OsError + string
}.

(** What [filepath.Walk] finds at a path it could [Lstat]: a node that is not
    a directory, or a directory with the outcome of [readDirNames], the names
    in the order [readDirNames] returns them, each with the outcome of its
    [Lstat]. *)
#[local] Unset Elimination Schemes.
Inductive Node : Type :=
| NotDir
| Directory (names : OsError + list (string * (OsError + Node))).
#[local] Set Elimination Schemes.

Definition nodeInfo (n : Node) : FileInfo :=
  match n with
  | NotDir => {| IsDir := false |}
  | Directory _ => {| IsDir := true |}
  end.

(** What the program writes besides its result. *)
Inductive Output : Type :=
| Stderr (line : string)
| Stdout (line : string).

(** ** Global tables of [main.go] *)

Definition textExtensions : list (string * bool) :=
  map (fun e => (e, true))
    [".txt"; ".md"; ".go"; ".py"; ".js";
     ".html"; ".css"; ".json"; ".xml"; ".yaml";
     ".yml"; ".sh"; ".bash"; ".c"; ".cpp";
     ".h"; ".hpp"; ".rs"; ".ts"; ".java";
     ".rb"; ".php"; ".pl"; ".swift"; ".kt";
     ".sql"; ".r"; ".conf"; ".ini"; ".csv";
     ".tsv"; ".bat"; ".ps1"; ".lua"].

(** Indexing a [map[string]bool]: the zero value [false] for a missing key. *)
Fixpoint mapIndex (m : list (string * bool)) (key : string) : bool :=
  match m with
  | [] => false
  | (k, v) :: m' => if String.eqb k key then v else mapIndex m' key
  end.

Definition binarySignatures : list (list byte) :=
  [ [x7f; x45; x4c; x46];   (* ELF *)
    [x4d; x5a];             (* Windows EXE *)
    [x50; x4b; x03; x04];   (* ZIP *)
    [xff; xd8; xff];        (* JPEG *)
    [x89; x50; x4e; x47];   (* PNG *)
    [x25; x50; x44; x46];   (* PDF *)
    [x1f; x8b] ].           (* GZIP *)

Definition defaultIgnorePatterns : list string :=
  [".*"; "node_modules/"; "target/"; "dist/"; "build/"; "bin/"; "pkg/";
   ".pewc"; ".git/"].

(** ** The pattern matcher *)

(** [isDirectory] *)
Definition isDirectory (os : OS) (path : string) : bool :=
  match Stat os path with
  | inl _ => false
  | inr info => IsDir info
  end.

(** The [regexPattern] that the wildcard branch hands to [filepath.Match]. *)
Definition regexPattern (pattern : string) : string :=
  let regexPattern := ReplaceAll pattern "." "\." in
  let regexPattern := ReplaceAll regexPattern "*" ".*" in
  let regexPattern := ReplaceAll regexPattern "?" "." in
  let regexPattern :=
    if negb (HasPrefix pattern "*") then "^" ++ regexPattern else regexPattern in
  if negb (HasSuffix pattern "*") then regexPattern ++ "$" else regexPattern.

(** The loop over [pathParts]. *)
Fixpoint matchesAnyPart (regexPattern : string) (pathParts : list string) : bool :=
  match pathParts with
  | [] => false
  | part :: rest =>
    if matched (Match regexPattern part) then true
    else matchesAnyPart regexPattern rest
  end.

(** The local [isDir] of [matchesGitIgnorePattern]: the directory flag of
    the path being matched. *)
Definition isDir (os : OS) (path : string) : bool :=
  HasSuffix path "/" || isDirectory os path.

(** [matchesGitIgnorePattern] *)
Definition matchesGitIgnorePattern (os : OS) (path pattern : string) : bool :=
  let pattern := ToSlash pattern in
  let isDirOnly := HasSuffix pattern "/" in
  let pattern := if isDirOnly then TrimSuffix pattern "/" else pattern in
  let isDir := isDir os path in
  if isDirOnly && negb isDir then false
  else if Contains pattern "*" then
    let regexPattern := regexPattern pattern in
    if matched (Match regexPattern path) then true
    else matchesAnyPart regexPattern (Split path "/")
  else if String.eqb pattern (Base path) then true
  else if String.eqb pattern path then true
  else matched (Match pattern path).

(** ** The content classifier *)

(** The loop [for i := range sig] under its guard
    [len(sig) <= len(content)]. *)
Fixpoint signatureMatches (sig content : list byte) : bool :=
  match sig, content with
  | [], _ => true
  | _ :: _, [] => false
  | s :: sig', c :: content' =>
    if Byte.eqb c s then signatureMatches sig' content' else false
  end.

Fixpoint anySignature (sigs : list (list byte)) (content : list byte) : bool :=
  match sigs with
  | [] => false
  | sig :: rest =>
    if (List.length sig <=? List.length content)%nat
       && signatureMatches sig content
    then true
    else anySignature rest content
  end.

(** The counting loop: [None] when it returns [true] at the second zero
    byte, otherwise the final [nonAsciiCount].  The counters are Go [int]s;
    they stay below [len(content)] and never wrap. *)
Fixpoint countLoop (content : list byte) (nullCount nonAsciiCount : Z)
    : option Z :=
  match content with
  | [] => Some nonAsciiCount
  | b :: rest =>
    if (Byte.to_N b =? 0)%N then
      let nullCount := (nullCount + 1)%Z in
      if (1 <? nullCount)%Z then None
      else countLoop rest nullCount nonAsciiCount
    else if (127 <? Byte.to_N b)%N
    then countLoop rest nullCount (nonAsciiCount + 1)%Z
    else countLoop rest nullCount nonAsciiCount
  end.

(** Go's [float64] is IEEE 754 binary64, the kernel's primitive floats. *)
Module Float64.
Import PrimFloat.
#[local] Set Warnings "-inexact-float".

(** [float64(n)] for an [int] [n] that is not negative. *)
Definition ofInt (n : Z) : float :=
  of_uint63 (Uint63.of_Z n).

(** [a/b > 0.3], the constant rounded to the nearest binary64 value. *)
Definition ratioAbove30 (a b : float) : bool :=
  ltb 0.3%float (div a b).

End Float64.

(** [len(content)] *)
Definition len {A : Type} (l : list A) : Z := Z.of_nat (List.length l).

(** [float64(nonAsciiCount)/float64(len(content)) > 0.3] *)
Definition ratioAbove30 (nonAsciiCount length : Z) : bool :=
  Float64.ratioAbove30 (Float64.ofInt nonAsciiCount) (Float64.ofInt length).

(** [isBinaryContent] *)
Definition isBinaryContent (content : list byte) : bool :=
  if (2 <=? len content)%Z && anySignature binarySignatures content
  then true
  else
    match countLoop content 0 0 with
    | None => true
    | Some nonAsciiCount =>
      if (0 <? len content)%Z
      then ratioAbove30 nonAsciiCount (len content)
      else false
    end.

(** [verifyTextContent] *)
Definition verifyTextContent (os : OS) (path : string) : bool * option error :=
  match Open os path with
  | inl err => (false, Some (OfOs err))
  | inr file =>
    let '(buf, err) := Read file 512 in
    match err with
    | Some e =>
      if negb (isEOF e) then (false, Some e)
      else (negb (isBinaryContent buf), None)
    | None => (negb (isBinaryContent buf), None)
    end
  end.

(** [sort.Strings]: increasing byte-wise order. *)
Fixpoint insertString (x : string) (l : list string) : list string :=
  match l with
  | [] => [x]
  | y :: l' => if String.leb x y then x :: l else y :: insertString x l'
  end.

Fixpoint sortStrings (l : list string) : list string :=
  match l with
  | [] => []
  | x :: l' => insertString x (sortStrings l')
  end.

Definition LF : string := String (ascii_of_nat 10) "".

Section Program.

(** Library functions whose results the program passes on without the
    properties below depending on them: [strings.ToLower] (Unicode case
    tables), [filepath.Rel] and [filepath.Join] (both clean their result). *)
Variable ToLower : string -> string.
Variable Rel : string -> string -> error + string.
Variable Join : string -> string -> string.

(** [isTextFile] *)
Definition isTextFile (os : OS) (path : string) : bool * option error :=
  let ext := ToLower (Ext path) in
  if mapIndex textExtensions ext then verifyTextContent os path
  else verifyTextContent os path.

(** ** The ignore-set resolver *)

(** The loop of [readPewcFile] over the lines of the file. *)
Fixpoint pewcLoop (lines : list string) (patterns : list string) : list string :=
  match lines with
  | [] => patterns
  | line :: rest =>
    let line := TrimSpace line in
    if String.eqb line "" || HasPrefix line "#" then pewcLoop rest patterns
    else pewcLoop rest (patterns ++ [line])%list
  end.

(** [readPewcFile] *)
Definition readPewcFile (os : OS) (rootDir : string) : list string * option error :=
  let pewcPath := Join rootDir ".pewc" in
  match ReadFile os pewcPath with
  | inl err =>
    if IsNotExist err then ([], None)
    else ([], Some (Errorf "error reading .pewc file" (OfOs err)))
  | inr content => (pewcLoop (Split content LF) [], None)
  end.

(** [getIgnorePatterns] *)
Definition getIgnorePatterns (os : OS) (rootDir : string) (noDefaultIgnores : bool)
    : list string * option error :=
  let patterns : list string := [] in
  let patterns :=
    if negb noDefaultIgnores then (patterns ++ defaultIgnorePatterns)%list
    else patterns in
  let '(pewcPatterns, err) := readPewcFile os rootDir in
  match err with
  | Some e => ([], Some e)
  | None => ((patterns ++ pewcPatterns)%list, None)
  end.

(** ** Membership in the ignore set *)

(** The loop of [isPathIgnored] over the patterns. *)
Fixpoint ignoredLoop (os : OS) (relPath : string) (patterns : list string) : bool :=
  match patterns with
  | [] => false
  | pattern :: rest =>
    if matchesGitIgnorePattern os relPath pattern then true
    else ignoredLoop os relPath rest
  end.

(** The path that [isPathIgnored] matches against the patterns. *)
Definition relPathOf (rootDir path : string) : string :=
  let relPath :=
    match Rel rootDir path with
    | inl _ => path
    | inr relPath => relPath
    end in
  ToSlash relPath.

(** [isPathIgnored] *)
Definition isPathIgnored (os : OS) (path rootDir : string) (patterns : list string)
    : bool :=
  if (List.length patterns =? 0)%nat then false
  else ignoredLoop os (relPathOf rootDir path) patterns.

(** ** The directory walk *)

(** What the closure of [collectTextFiles] holds and writes. *)
Record WalkState : Type := {
  fileList : list string;
  output : list Output
}.

Definition appendFile (st : WalkState) (path : string) : WalkState :=
  {| fileList := (fileList st ++ [path])%list; output := output st |}.

Definition write (st : WalkState) (o : Output) : WalkState :=
  {| fileList := fileList st; output := (output st ++ [o])%list |}.

(** [filepath.WalkFunc], the state of the closure passed along. *)
Definition WalkFunc : Type :=
  string -> option FileInfo -> option error -> WalkState -> WalkState * option error.

(** The loop of [filepath.walk] over the names of a directory: an entry
    whose [Lstat] fails is reported to the callback; the loop stops at the
    first error, [SkipDir] returned for a directory apart.  [walkChild] is
    the recursive call. *)
Fixpoint entriesLoop
    (walkChild : string -> Node -> WalkState -> WalkState * option error)
    (walkFn : WalkFunc) (path : string)
    (entries : list (string * (OsError + Node))) (st : WalkState)
    : WalkState * option error :=
  match entries with
  | [] => (st, None)
  | (name, lstat) :: rest =>
    let filename := Join path name in
    match lstat with
    | inl e =>
      let '(st', err) := walkFn filename None (Some (OfOs e)) st in
      match err with
      | Some e' =>
        if negb (isSkipDir e') then (st', Some e')
        else entriesLoop walkChild walkFn path rest st'
      | None => entriesLoop walkChild walkFn path rest st'
      end
    | inr child =>
      let '(st', err) := walkChild filename child st in
      match err with
      | Some e' =>
        if negb (IsDir (nodeInfo child)) || negb (isSkipDir e')
        then (st', Some e')
        else entriesLoop walkChild walkFn path rest st'
      | None => entriesLoop walkChild walkFn path rest st'
      end
    end
  end.

(** [filepath.walk]: the callback sees a directory after its names were
    read and before its entries are walked. *)
Fixpoint walk (walkFn : WalkFunc) (path : string) (node : Node) (st : WalkState)
    : WalkState * option error :=
  match node with
  | NotDir => walkFn path (Some (nodeInfo node)) None st
  | Directory names =>
    let err :=
      match names with
      | inl e => Some (OfOs e)
      | inr _ => None
      end in
    let '(st1, err1) := walkFn path (Some (nodeInfo node)) err st in
    match names, err1 with
    | inr entries, None => entriesLoop (walk walkFn) walkFn path entries st1
    | _, _ => (st1, err1)
    end
  end.

(** [filepath.Walk]; [tree] is the outcome of [os.Lstat(root)] and of the
    walk below it. *)
Definition Walk (root : string) (tree : OsError + Node) (walkFn : WalkFunc)
    (st : WalkState) : WalkState * option error :=
  let '(st', err) :=
    match tree with
    | inl e => walkFn root None (Some (OfOs e)) st
    | inr node => walk walkFn root node st
    end in
  match err with
  | Some e => if isSkipDir e then (st', None) else (st', Some e)
  | None => (st', None)
  end.

(** The closure that [collectTextFiles] passes to [filepath.Walk]. *)
Definition collectFn (os : OS) (rootDir : string) (ignorePatterns : list string)
    : WalkFunc :=
  fun path info err st =>
    match err with
    | Some e => (st, Some e)
    | None =>
      let infoIsDir :=
        match info with
        | Some i => IsDir i
        | None => false
        end in
      if isPathIgnored os path rootDir ignorePatterns then
        if infoIsDir then (st, Some SkipDir) else (st, None)
      else if infoIsDir then (st, None)
      else
        let '(isText, err) := isTextFile os path in
        match err with
        | Some e =>
          (write st (Stderr ("Warning: Could not check file type of " ++ path
                             ++ ": " ++ errorText e ++ LF)), None)
        | None =>
          if isText then (appendFile st path, None)
          else (write st (Stdout ("Skipping binary file: " ++ path ++ LF)), None)
        end
    end.

(** [collectTextFiles]: the result pair and what was written. *)
Definition collectTextFiles (os : OS) (rootDir : string) (tree : OsError + Node)
    (ignorePatterns : list string) : (list string * option error) * list Output :=
  let st0 := {| fileList := []; output := [] |} in
  let '(st, err) := Walk rootDir tree (collectFn os rootDir ignorePatterns) st0 in
  match err with
  | Some e => (([], Some (Errorf "error walking directory" e)), output st)
  | None => ((sortStrings (fileList st), None), output st)
  end.

End Program.

(** ** The sanitizers *)

(** The replacements of [sanitizeContent]: three box-drawing characters,
    each three bytes of UTF-8, become one ASCII byte. *)
Definition boxTee : string := "├".
Definition boxDash : string := "─".
Definition boxCorner : string := "└".

(** [sanitizeContent] *)
Definition sanitizeContent (content : string) : string :=
  let content := ReplaceAll content boxTee "|" in
  let content := ReplaceAll content boxDash "-" in
  let content := ReplaceAll content boxCorner "`" in
  content.

(** The test of [sanitizeFileContent] on one byte: a control character
    other than the line feed, the tab and the carriage return. *)
Definition isDroppedControl (c : ascii) : bool :=
  (byteN c <? 32)%N
  && negb (Ascii.eqb c (ascii_of_nat 10))
  && negb (Ascii.eqb c (ascii_of_nat 9))
  && negb (Ascii.eqb c (ascii_of_nat 13)).

(** The loop of [sanitizeFileContent] over the bytes of [contentStr]. *)
Fixpoint sanitizeLoop (contentStr : string) : string :=
  match contentStr with
  | "" => ""
  | String c rest =>
    if isDroppedControl c then sanitizeLoop rest
    else String c (sanitizeLoop rest)
  end.

(** [sanitizeFileContent] *)
Definition sanitizeFileContent (content : list byte) : string :=
  sanitizeLoop (string_of_list_byte content).

(** Every byte of [s] passes the test [p]. *)
Fixpoint allBytes (p : ascii -> bool) (s : string) : bool :=
  match s with
  | "" => true
  | String c rest => p c && allBytes p rest
  end.

(** ** The markdown of the files *)

(** [strings.TrimPrefix] *)
Definition TrimPrefix (s prefix : string) : string :=
  if HasPrefix s prefix then sliceFrom (String.length prefix) s else s.

(** The last byte of a buffer, [None] when it is empty. *)
Fixpoint lastByte (buf : string) : option ascii :=
  match buf with
  | "" => None
  | String c rest =>
    match rest with
    | "" => Some c
    | String _ _ => lastByte rest
    end
  end.

(** [buf.Len() > 0 && buf.Bytes()[buf.Len()-1] != '\n'] *)
Definition lacksFinalLineFeed (buf : string) : bool :=
  match lastByte buf with
  | None => false
  | Some c => negb (Ascii.eqb c (ascii_of_nat 10))
  end.

(** The language tag of the code fence:
    [strings.TrimPrefix(filepath.Ext(file), ".")], or [text] when that is
    empty. *)
Definition fenceLanguage (file : string) : string :=
  let ext := TrimPrefix (Ext file) "." in
  if String.eqb ext "" then "text" else ext.

(** The five writes that [processFiles] and [generateMarkdown] both make
    for a file they render, [heading] being the name shown. *)
Definition writeFileSection (buf heading file : string) (content : list byte)
    : string :=
  let ext := fenceLanguage file in
  let buf := buf ++ ("## " ++ heading ++ LF ++ LF) in
  let buf := buf ++ ("```" ++ ext ++ LF) in
  let buf := buf ++ sanitizeFileContent content in
  let buf := if lacksFinalLineFeed buf then buf ++ LF else buf in
  buf ++ ("```" ++ LF ++ LF).

Section Markdown.

Variable ToLower : string -> string.
Variable Rel : string -> string -> error + string.

(** The loop of [processFiles]: the buffer and what is written to the
    standard streams. *)
Fixpoint processFilesLoop (os : OS) (files : list string) (buf : string)
    (out : list Output) : string * list Output :=
  match files with
  | [] => (buf, out)
  | file :: rest =>
    let '(isText, err) := isTextFile ToLower os file in
    match err with
    | Some e =>
      processFilesLoop os rest buf
        (out ++ [Stderr ("Warning: Could not check file type of " ++ file
                         ++ ": " ++ errorText e ++ LF)])%list
    | None =>
      if negb isText then
        processFilesLoop os rest buf
          (out ++ [Stdout ("Skipping binary file: " ++ file ++ LF)])%list
      else
        match ReadFile os file with
        | inl e =>
          processFilesLoop os rest buf
            (out ++ [Stderr ("Error reading file " ++ file ++ ": "
                             ++ errorText (OfOs e) ++ LF)])%list
        | inr content =>
          processFilesLoop os rest
            (writeFileSection buf file file (list_byte_of_string content)) out
        end
    end
  end.

(** [processFiles]: the result pair and what was written. *)
Definition processFiles (os : OS) (files : list string)
    : (string * option error) * list Output :=
  let buf := "# Source Code Files" ++ LF ++ LF in
  let '(buf, out) := processFilesLoop os files buf [] in
  ((buf, None), out).

(** The loop of [generateMarkdown]: the buffer, the counter [textFiles] and
    what is written to the standard error stream. *)
Fixpoint generateMarkdownLoop (os : OS) (dumpDir : string) (files : list string)
    (buf : string) (textFiles : Z) (out : list Output)
    : string * Z * list Output :=
  match files with
  | [] => (buf, textFiles, out)
  | file :: rest =>
    match Rel dumpDir file with
    | inl e =>
      generateMarkdownLoop os dumpDir rest buf textFiles
        (out ++ [Stderr ("Error getting relative path of " ++ file ++ ": "
                         ++ errorText e ++ LF)])%list
    | inr relPath =>
      match ReadFile os file with
      | inl e =>
        generateMarkdownLoop os dumpDir rest buf textFiles
          (out ++ [Stderr ("Error reading file " ++ file ++ ": "
                           ++ errorText (OfOs e) ++ LF)])%list
      | inr content =>
        generateMarkdownLoop os dumpDir rest
          (writeFileSection buf relPath file (list_byte_of_string content))
          (textFiles + 1)%Z out
      end
    end
  end.

(** [generateMarkdown]: the markdown and what was written. *)
Definition generateMarkdown (os : OS) (dumpDir : string) (files : list string)
    (tree : string) : string * list Output :=
  let buf := "# Directory Structure" ++ LF ++ LF in
  let buf := buf ++ ("```" ++ LF) in
  let buf := buf ++ tree in
  let buf := buf ++ ("```" ++ LF ++ LF) in
  let buf := buf ++ ("# File Contents" ++ LF ++ LF) in
  let '(buf, textFiles, out) := generateMarkdownLoop os dumpDir files buf 0 [] in
  let buf :=
    if (textFiles =? 0)%Z
    then buf ++ ("No text files found in the directory." ++ LF)
    else buf in
  (buf, out).

End Markdown.

(** A rendered content ends on a line boundary: empty, or with a final line
    feed, added when it is missing. *)
Definition terminated (s : string) : string :=
  if lacksFinalLineFeed s then s ++ LF else s.

(** The section of a rendered file, whatever was written before it. *)
Definition fileSection (heading file : string) (content : list byte) : string :=
  "## " ++ heading ++ LF ++ LF
  ++ "```" ++ fenceLanguage file ++ LF
  ++ terminated (sanitizeFileContent content)
  ++ "```" ++ LF ++ LF.

(** [processFiles] renders a file when it is classified as text without an
    error and can be read. *)
Definition renderedByProcessFiles (ToLower : string -> string) (os : OS)
    (file : string) : option string :=
  match isTextFile ToLower os file, ReadFile os file with
  | (true, None), inr content => Some content
  | _, _ => None
  end.

(** [generateMarkdown] renders a file when its relative path can be
    computed and it can be read. *)
Definition renderedByGenerateMarkdown (Rel : string -> string -> error + string)
    (os : OS) (dumpDir file : string) : option (string * string) :=
  match Rel dumpDir file, ReadFile os file with
  | inr relPath, inr content => Some (relPath, content)
  | _, _ => None
  end.

Definition sourceFilesHeader : string := "# Source Code Files" ++ LF ++ LF.

Definition directoryHeader (tree : string) : string :=
  "# Directory Structure" ++ LF ++ LF ++ "```" ++ LF ++ tree
  ++ "```" ++ LF ++ LF ++ "# File Contents" ++ LF ++ LF.

Definition noTextFilesNote : string :=
  "No text files found in the directory." ++ LF.

(** The concatenation of the strings of a list. *)
Definition joinAll (parts : list string) : string :=
  fold_right append "" parts.

(** What [processFiles] writes into the buffer for the files, one section
    per rendered file. *)
Definition processFilesBody (ToLower : string -> string) (os : OS)
    (files : list string) : string :=
  joinAll
    (map (fun file =>
            match renderedByProcessFiles ToLower os file with
            | Some content => fileSection file file (list_byte_of_string content)
            | None => ""
            end) files).

(** What [generateMarkdown] writes into the buffer for the files. *)
Definition generateMarkdownBody (Rel : string -> string -> error + string)
    (os : OS) (dumpDir : string) (files : list string) : string :=
  joinAll
    (map (fun file =>
            match renderedByGenerateMarkdown Rel os dumpDir file with
            | Some (relPath, content) =>
              fileSection relPath file (list_byte_of_string content)
            | None => ""
            end) files).

Definition isNone {A : Type} (o : option A) : bool :=
  match o with
  | None => true
  | Some _ => false
  end.

(** ** The directory tree *)

(** An [fs.DirEntry] as [os.ReadDir] lists it: a plain entry, or a
    directory with the outcome of [os.ReadDir] on it. *)
#[local] Unset Elimination Schemes.
Inductive Listed : Type :=
| ListedFile
| ListedDir (readDir : OsError + list (string * Listed)).
#[local] Set Elimination Schemes.

(** [file.IsDir()] *)
Definition listedIsDir (entry : Listed) : bool :=
  match entry with
  | ListedFile => false
  | ListedDir _ => true
  end.

(** The recursive call of [printDir] with its arguments [dir], [prefix]
    and the buffer. *)
Definition Printer : Type := string -> string -> string -> string * option error.

(** An element of [visibleFiles]: the entry, with the recursive call that
    prints what is below it. *)
Record Visible : Type := {
  vName : string;
  vEntry : Listed;
  vPrint : Printer
}.

(** [sort.Slice] with the order of the names; the names of a directory are
    distinct, so the sorted sequence is unique. *)
Fixpoint insertByName (x : Visible) (l : list Visible) : list Visible :=
  match l with
  | [] => [x]
  | y :: l' =>
    if String.ltb (vName x) (vName y) then x :: l else y :: insertByName x l'
  end.

Fixpoint sortByName (l : list Visible) : list Visible :=
  match l with
  | [] => []
  | x :: l' => insertByName x (sortByName l')
  end.

Section Tree.

Variable Rel : string -> string -> error + string.
Variable Join : string -> string -> string.
Variable os : OS.
Variable rootDir : string.
Variable ignorePatterns : list string.

(** The second loop of [printDir], over the sorted visible entries; the
    last one is the one with nothing after it. *)
Fixpoint printLoop (dir prefix : string) (visibleFiles : list Visible)
    (buf : string) : string * option error :=
  match visibleFiles with
  | [] => (buf, None)
  | file :: rest =>
    let path := Join dir (vName file) in
    let isLast := (List.length rest =? 0)%nat in
    let branch := if isLast then "`-- " else "|-- " in
    let newPrefix := if isLast then prefix ++ "    " else prefix ++ "|   " in
    let buf := buf ++ (prefix ++ branch ++ vName file) in
    if listedIsDir (vEntry file) then
      let buf := buf ++ ("/" ++ LF) in
      let '(buf, err) := vPrint file path newPrefix buf in
      match err with
      | Some e => (buf, Some e)
      | None => printLoop dir prefix rest buf
      end
    else printLoop dir prefix rest (buf ++ LF)
  end.

(** The body of [printDir] on the outcome of [os.ReadDir(dir)], [print]
    being the recursive call for an entry. *)
Definition printDirWith (print : Listed -> Printer)
    (readDir : OsError + list (string * Listed)) : Printer :=
  fun dir prefix buf =>
    match readDir with
    | inl e => (buf, Some (OfOs e))
    | inr files =>
      let visibleFiles :=
        filter
          (fun file =>
             negb (isPathIgnored Rel os (Join dir (vName file)) rootDir
                     ignorePatterns))
          (map (fun file =>
                  {| vName := fst file; vEntry := snd file;
                     vPrint := print (snd file) |}) files) in
      if (List.length visibleFiles =? 0)%nat then (buf, None)
      else printLoop dir prefix (sortByName visibleFiles) buf
    end.

(** [printDir] on an entry: what [os.ReadDir] returns for it decides. *)
Fixpoint printListed (entry : Listed) : Printer :=
  match entry with
  | ListedFile => fun _ _ buf => (buf, Some (OfOs (OtherOsError "not a directory")))
  | ListedDir readDir => printDirWith printListed readDir
  end.

(** [printDir] *)
Definition printDir (readDir : OsError + list (string * Listed))
    (dir prefix buf : string) : string * option error :=
  printDirWith printListed readDir dir prefix buf.

(** [generateTree]; [readDir] is the outcome of [os.ReadDir(rootDir)]. *)
Definition generateTree (readDir : OsError + list (string * Listed))
    : string * option error :=
  let buf := Base rootDir ++ "/" ++ LF in
  let '(buf, err) := printDir readDir rootDir "" buf in
  match err with
  | Some e => (buf, Some (Errorf "error generating tree" e))
  | None => (buf, None)
  end.

(** A directory that is visible from [dir] down and cannot be read. *)
Fixpoint unreadableBelow (dir : string) (entry : Listed) : bool :=
  match entry with
  | ListedFile => false
  | ListedDir (inl _) => true
  | ListedDir (inr files) =>
    existsb
      (fun file =>
         negb (isPathIgnored Rel os (Join dir (fst file)) rootDir ignorePatterns)
         && listedIsDir (snd file)
         && unreadableBelow (Join dir (fst file)) (snd file))
      files
  end.

End Tree.

(** Induction on a listed entry, the entries of a directory included. *)
Section ListedInduction.

Variable P : Listed -> Prop.
Hypothesis P_file : P ListedFile.
Hypothesis P_unread : forall e, P (ListedDir (inl e)).
Hypothesis P_read :
  forall files, Forall (fun file => P (snd file)) files -> P (ListedDir (inr files)).

Fixpoint Listed_induction (entry : Listed) : P entry :=
  match entry with
  | ListedFile => P_file
  | ListedDir (inl e) => P_unread e
  | ListedDir (inr files) =>
    P_read files
      ((fix all (l : list (string * Listed)) :=
          match l return Forall _ l with
          | [] => Forall_nil _
          | file :: l' => Forall_cons file (Listed_induction (snd file)) (all l')
          end) files)
  end.

End ListedInduction.

(** An environment for the examples of the markdown: a source file
    without a final line feed, a binary file and a file that cannot be
    opened. *)
Definition markdownOS : OS := {|
  Stat := fun p => inl (NotExist ("stat " ++ p ++ ": no such file or directory"));
  Open := fun p =>
    if String.eqb p "main.go" then inr (Readable (list_byte_of_string "package main"))
    else if String.eqb p "a.bin" then inr (Readable [x00; x00; x01])
    else inl (NotExist ("open " ++ p ++ ": no such file or directory"));
  ReadFile := fun p =>
    if String.eqb p "main.go" then inr "package main"
    else inl (NotExist ("open " ++ p ++ ": no such file or directory"))
|}.

(** A tree of [os.ReadDir] outcomes for the examples: an ignored directory
    that cannot be read, a source directory and two files. *)
Definition sampleListing : OsError + list (string * Listed) :=
  inr [ ("src", ListedDir (inr [("main.x", ListedFile); ("lib.x", ListedFile)]));
        ("build", ListedDir (inl (OtherOsError "open /proj/build: permission denied")));
        ("README.md", ListedFile) ].

(** ** Sample instances of the library functions and of the environment *)

(** ASCII lower-casing, [strings.ToLower] on ASCII strings. *)
Fixpoint asciiToLower (s : string) : string :=
  match s with
  | "" => ""
  | String c s' =>
    let n := nat_of_ascii c in
    String (if (65 <=? n)%nat && (n <=? 90)%nat then ascii_of_nat (n + 32) else c)
      (asciiToLower s')
  end.

(** [filepath.Rel] on a clean target below a clean base. *)
Definition relBelow (basepath targpath : string) : error + string :=
  if String.eqb targpath basepath then inr "."
  else if HasPrefix targpath (basepath ++ "/")
  then inr (sliceFrom (String.length basepath + 1) targpath)
  else inl (Errorf "Rel: can't make relative" EOF).

(** [filepath.Join] of a clean directory and a name. *)
Definition joinName (dir name : string) : string := dir ++ "/" ++ name.

Definition sampleOS : OS := {|
  Stat := fun p =>
    if String.eqb p ".git" || String.eqb p "src" then inr {| IsDir := true |}
    else inl (NotExist ("stat " ++ p ++ ": no such file or directory"));
  Open := fun p =>
    if String.eqb p "/proj/README.md" then inr (Readable (list_byte_of_string "# pew"))
    else if String.eqb p "/proj/src/main.x" then inr (Readable (list_byte_of_string "x"))
    else if String.eqb p "/proj/logo.png" then inr (Readable [x89; x50; x4e; x47; x0d; x0a])
    else if String.eqb p "/proj/locked" then inl (OtherOsError "open /proj/locked: permission denied")
    else if String.eqb p "/proj/.git/config" then inr (Readable (list_byte_of_string "[core]"))
    else inl (NotExist ("open " ++ p ++ ": no such file or directory"));
  ReadFile := fun p =>
    if String.eqb p "/proj/.pewc"
    then inr ("# rules" ++ LF ++ "  *.log " ++ LF ++ LF ++ "doc/*.txt" ++ LF)
    else inl (NotExist ("open " ++ p ++ ": no such file or directory"))
|}.

Definition sampleTree : OsError + Node :=
  inr (Directory (inr
    [ (".git", inr (Directory (inr [("config", inr NotDir)])));
      ("README.md", inr NotDir);
      ("locked", inr NotDir);
      ("logo.png", inr NotDir);
      ("src", inr (Directory (inr [("main.x", inr NotDir)]))) ])).


(** ** The traversal in the words of the specification *)

Section Traversal.

Variable Join : string -> string -> string.
(** The ignore test and the outcome of the classifier, by path. *)
Variable ignored : string -> bool.
Variable textEligible : string -> bool.

(** The eligible files of a tree in pre-order: not ignored, not below an
    ignored directory, and classified as text without an error. *)
Fixpoint eligibleFiles (path : string) (node : Node) : list string :=
  match node with
  | NotDir =>
    if ignored path then [] else if textEligible path then [path] else []
  | Directory (inl _) => []
  | Directory (inr entries) =>
    if ignored path then []
    else
      flat_map
        (fun entry =>
           match snd entry with
           | inl _ => []
           | inr child => eligibleFiles (Join path (fst entry)) child
           end)
        entries
  end.

Definition firstSome {A B : Type} (f : A -> option B) : list A -> option B :=
  fix go (l : list A) : option B :=
    match l with
    | [] => None
    | x :: l' =>
      match f x with
      | Some y => Some y
      | None => go l'
      end
    end.

(** The first failure of [Lstat] or of a directory listing that the walk
    meets: the listing of a directory is read even when the directory is
    ignored, its entries are visited only when it is not. *)
Fixpoint walkFailure (path : string) (node : Node) : option OsError :=
  match node with
  | NotDir => None
  | Directory (inl e) => Some e
  | Directory (inr entries) =>
    if ignored path then None
    else
      firstSome
        (fun entry =>
           match snd entry with
           | inl e => Some e
           | inr child => walkFailure (Join path (fst entry)) child
           end)
        entries
  end.

Definition treeEligible (root : string) (tree : OsError + Node) : list string :=
  match tree with
  | inl _ => []
  | inr node => eligibleFiles root node
  end.

Definition treeFailure (root : string) (tree : OsError + Node) : option OsError :=
  match tree with
  | inl e => Some e
  | inr node => walkFailure root node
  end.

End Traversal.

(** The classifier says text, and reports no error. *)
Definition textEligibleBy (result : bool * option error) : bool :=
  match result with
  | (isText, None) => isText
  | (_, Some _) => false
  end.

(** The ignore test of the walk, by path. *)
Definition ignoredBy (Rel : string -> string -> error + string) (os : OS)
    (rootDir : string) (ignorePatterns : list string) (path : string) : bool :=
  isPathIgnored Rel os path rootDir ignorePatterns.

(** The classification of the walk, by path. *)
Definition classifiedAsText (ToLower : string -> string) (os : OS)
    (path : string) : bool :=
  textEligibleBy (isTextFile ToLower os path).

(** What [walk] and the loop over the entries of a directory owe their
    caller: the error of the first failure met, or else the eligible files
    appended to the list, with [SkipDir] for an ignored directory. *)
Definition walkOutcome (failure : option OsError) (found : list string)
    (skip : bool) (st : WalkState) (r : WalkState * option error) : Prop :=
  match failure with
  | Some e => snd r = Some (OfOs e)
  | None =>
    fileList (fst r) = (fileList st ++ found)%list
    /\ snd r = if skip then Some SkipDir else None
  end.

(** A readable root with a sub-directory that cannot be listed, and one
    with an entry that cannot be statted. *)
Definition unlistableSubdirTree : OsError + Node :=
  inr (Directory (inr
    [ ("README.md", inr NotDir);
      ("sub", inr (Directory (inl (OtherOsError "open /proj/sub: permission denied")))) ])).

Definition vanishedEntryTree : OsError + Node :=
  inr (Directory (inr
    [ ("README.md", inr NotDir);
      ("gone.txt", inl (NotExist "lstat /proj/gone.txt: no such file or directory")) ])).

(** Induction on the tree, the entries of a directory included. *)
Section NodeInduction.

Variable P : Node -> Prop.
Hypothesis P_NotDir : P NotDir.
Hypothesis P_unlisted : forall e, P (Directory (inl e)).
Hypothesis P_listed :
  forall entries,
    Forall (fun entry => match snd entry with
                         | inl _ => True
                         | inr child => P child
                         end) entries ->
    P (Directory (inr entries)).

Fixpoint Node_induction (node : Node) : P node :=
  match node with
  | NotDir => P_NotDir
  | Directory (inl e) => P_unlisted e
  | Directory (inr entries) =>
    P_listed entries
      ((fix all (l : list (string * (OsError + Node))) :=
          match l return Forall _ l with
          | [] => Forall_nil _
          | (name, inl e) :: l' => Forall_cons (name, inl e) I (all l')
          | (name, inr child) :: l' =>
            Forall_cons (name, inr child) (Node_induction child) (all l')
          end) entries)
  end.

End NodeInduction.

(** ** The ignore set in the words of the specification *)

(** A trimmed line of the rules file is kept unless it is empty or starts
    with the number sign. *)
Definition keptLine (line : string) : bool :=
  negb (String.eqb line "") && negb (HasPrefix line "#").

(** The patterns a rules file contributes: its lines, trimmed, the empty and
    the comment lines discarded, in file order. *)
Definition pewcPatternsBySpec (content : string) : list string :=
  filter keptLine (map TrimSpace (Split content LF)).

(** The built-in list when defaults are in use. *)
Definition builtinsBySpec (useDefaults : bool) : list string :=
  if useDefaults then defaultIgnorePatterns else [].

(** ** The classification rule in the words of the specification *)

Fixpoint beginsWith (sig content : list byte) : bool :=
  match sig, content with
  | [], _ => true
  | _ :: _, [] => false
  | s :: sig', c :: content' => Byte.eqb s c && beginsWith sig' content'
  end.

(** The content begins with one of the seven signatures. *)
Definition hasSignature (content : list byte) : bool :=
  existsb (fun sig => beginsWith sig content) binarySignatures.

(** The number of zero bytes. *)
Definition zeroBytes (content : list byte) : Z :=
  len (filter (fun b => (Byte.to_N b =? 0)%N) content).

(** The number of bytes with a value above 127. *)
Definition highBytes (content : list byte) : Z :=
  len (filter (fun b => (127 <? Byte.to_N b)%N) content).

(** Binary by the specification: a signature, two zero bytes or, in exact
    arithmetic, more than 30% of high bytes in a non-empty content. *)
Definition binaryBySpec (content : list byte) : bool :=
  hasSignature content
  || (2 <=? zeroBytes content)%Z
  || (negb (len content =? 0)%Z
      && (3 * len content <? 10 * highBytes content)%Z).

(** Printable ASCII but for zero bytes. *)
Definition printableOrZero (b : byte) : bool :=
  (Byte.to_N b =? 0)%N || (32 <=? Byte.to_N b)%N && (Byte.to_N b <=? 126)%N.

(** The pairs [(a, n)] with [0 <= a <= n] and [1 <= n <= 512], on which the
    binary64 comparison is checked against the exact one. *)
Definition ratioCases : list (Z * Z) :=
  flat_map (fun n => map (fun a => (Z.of_nat a, Z.of_nat n)) (seq 0 (S n)))
    (seq 1 512).

Definition ratioExactOn (an : Z * Z) : bool :=
  Bool.eqb (ratioAbove30 (fst an) (snd an)) (3 * snd an <? 10 * fst an)%Z.

(** ** The matching rule in the words of the specification *)

(** Rule 2: a directory-only pattern is refused for a path that is not a
    directory. *)
Definition passesDirOnlyRule (os : OS) (path pattern : string) : bool :=
  negb (HasSuffix pattern "/" && negb (isDir os path)).

(** Rule 3: the glob is tested against the full path and, failing that,
    against every segment of the path. *)
Definition wildcardProcedure (glob path : string) : bool :=
  matched (Match glob path)
  || existsb (fun part => matched (Match glob part)) (Split path "/").

(** Rule 4: basename equality, full equality or the glob test of the
    pattern as it stands. *)
Definition literalProcedure (pattern path : string) : bool :=
  String.eqb pattern (Base path) || String.eqb pattern path
  || matched (Match pattern path).

(** The bytes that [filepath.Match] does not take literally. *)
Definition isMeta (c : ascii) : bool :=
  Ascii.eqb c "*" || Ascii.eqb c "?" || Ascii.eqb c "[" || Ascii.eqb c "\".

Fixpoint plain (pattern : string) : bool :=
  match pattern with
  | "" => true
  | String c p' => negb (isMeta c) && plain p'
  end.

Fixpoint stripPrefix (q s : string) : option string :=
  match q, s with
  | "", _ => Some s
  | String _ _, "" => None
  | String c q', String d s' => if Ascii.eqb c d then stripPrefix q' s' else None
  end.

(** * Properties *)

Local Open Scope nat_scope.

(** ** Strings *)

Lemma sliceTo_sliceFrom (n : nat) (s : string) :
  sliceTo n s ++ sliceFrom n s = s.
Proof.
  revert s; induction n as [|n IH]; intros [|c s]; simpl; try reflexivity.
  now rewrite IH.
Qed.

Lemma HasSuffix_split (s suffix : string) :
  HasSuffix s suffix = true -> s = TrimSuffix s suffix ++ suffix.
Proof.
  intros H. unfold TrimSuffix. rewrite H.
  unfold HasSuffix in H. apply andb_prop in H as [_ H].
  apply String.eqb_eq in H.
  pose proof (sliceTo_sliceFrom (String.length s - String.length suffix) s) as E.
  rewrite H in E. now symmetry.
Qed.

Lemma TrimSuffix_id (s suffix : string) :
  HasSuffix s suffix = false -> TrimSuffix s suffix = s.
Proof. intros H. unfold TrimSuffix. now rewrite H. Qed.

(** A one-byte [prefix] is a prefix of [s] when it is the first byte. *)
Lemma HasPrefix_byte (x c : ascii) (s : string) :
  HasPrefix (String c s) (String x "") = Ascii.eqb c x.
Proof.
  unfold HasPrefix. simpl.
  destruct (Ascii.eqb c x); reflexivity.
Qed.

Lemma HasPrefix_byte_nil (x : ascii) : HasPrefix "" (String x "") = false.
Proof. reflexivity. Qed.

Lemma Contains_byte_cons (x c : ascii) (s : string) :
  Contains (String c s) (String x "")
  = Ascii.eqb c x || Contains s (String x "").
Proof.
  cbn [Contains]. now rewrite HasPrefix_byte.
Qed.

Lemma Contains_byte_app (x y : ascii) (s : string) :
  Ascii.eqb y x = false ->
  Contains (s ++ String y "") (String x "") = Contains s (String x "").
Proof.
  intros Hxy. induction s as [|c s IH].
  - cbn [append]. rewrite Contains_byte_cons, Hxy. reflexivity.
  - cbn [append]. rewrite !Contains_byte_cons, IH. reflexivity.
Qed.

(** Removing the trailing slash of a pattern does not change which other
    bytes occur in it. *)
Lemma Contains_TrimSuffix_slash (x : ascii) (s : string) :
  Ascii.eqb "/" x = false ->
  Contains (TrimSuffix s "/") (String x "") = Contains s (String x "").
Proof.
  intros Hx. destruct (HasSuffix s "/") eqn:Hs.
  - rewrite (HasSuffix_split _ _ Hs) at 2.
    now rewrite Contains_byte_app.
  - now rewrite TrimSuffix_id.
Qed.

Lemma Split_without_separator (x : ascii) (s : string) :
  Contains s (String x "") = false -> Split s (String x "") = [s].
Proof.
  unfold Split. induction s as [|c s IH]; intros H.
  - reflexivity.
  - rewrite Contains_byte_cons in H. apply orb_false_elim in H as [Hc Hs].
    cbn [splitScan]. rewrite HasPrefix_byte, Hc, (IH Hs). reflexivity.
Qed.

Lemma HasPrefix_byte_inv (x : ascii) (s : string) :
  HasPrefix s (String x "") = true -> exists rest, s = String x rest.
Proof.
  destruct s as [|c s]; [discriminate|].
  rewrite HasPrefix_byte. intros H. apply Ascii.eqb_eq in H. subst. now exists s.
Qed.

(** ** The backward scans of [strings.TrimSpace] never run out of fuel *)

Lemma sliceTo_length (n : nat) (s : string) :
  String.length (sliceTo n s) = Nat.min n (String.length s).
Proof.
  revert s; induction n as [|n IH]; intros [|c s]; cbn; auto.
Qed.

Lemma lastStart_le (fuel : nat) (s : string) (lim start : Z) :
  (Utf8.lastStart fuel s lim start <= start)%Z.
Proof.
  revert start; induction fuel as [|fuel IH]; intros start; cbn; [lia|].
  destruct (start <? lim)%Z; [lia|].
  destruct (Utf8.RuneStart _); [lia|].
  specialize (IH (start - 1)%Z). lia.
Qed.

(** The search for the start of the last rune stops within [UTFMax]
    turns. *)
Lemma lastStart_fuel (fuel : nat) (s : string) (lim start : Z) :
  (start - lim < Z.of_nat fuel - 1)%Z ->
  Utf8.lastStart (S fuel) s lim start = Utf8.lastStart fuel s lim start.
Proof.
  revert start; induction fuel as [|fuel IH]; intros start H.
  - cbn. assert ((start <? lim)%Z = true) as -> by (apply Z.ltb_lt; lia).
    reflexivity.
  - cbn [Utf8.lastStart]. destruct (start <? lim)%Z; [reflexivity|].
    destruct (Utf8.RuneStart _); [reflexivity|].
    apply IH. lia.
Qed.

Lemma DecodeLastRuneInString_width (c : ascii) (s : string) :
  1 <= snd (Utf8.DecodeLastRuneInString (String c s)).
Proof.
  unfold Utf8.DecodeLastRuneInString.
  set (e := Z.of_nat (String.length (String c s))).
  assert (1 <= e)%Z as He by (unfold e; cbn [String.length]; lia).
  assert ((e =? 0)%Z = false) as -> by (apply Z.eqb_neq; lia).
  destruct (_ <? Utf8.RuneSelf)%N; [cbn; lia|].
  pose proof (lastStart_le Utf8.UTFMax (String c s)
                (Z.max 0 (e - Z.of_nat Utf8.UTFMax)) (e - 2)) as Hle.
  set (start := Utf8.lastStart _ _ _ _) in *.
  destruct (Utf8.DecodeRuneInString _) as [r size].
  destruct (_ =? e)%Z eqn:E; [|cbn; lia].
  apply Z.eqb_eq in E. cbn [snd].
  destruct (start <? 0)%Z; lia.
Qed.

Lemma lastIndexFunc_fuel (f : N -> bool) (s : string) (f1 : nat) :
  forall f2 i,
    i <= String.length s -> i < f1 -> i < f2 ->
    lastIndexFunc f1 f s i = lastIndexFunc f2 f s i.
Proof.
  induction f1 as [|f1 IH]; intros f2 i Hi H1 H2; [inversion H1|].
  destruct f2 as [|f2]; [inversion H2|].
  cbn [lastIndexFunc]. destruct (i =? 0) eqn:E0; [reflexivity|].
  apply Nat.eqb_neq in E0.
  pose proof (sliceTo_length i s) as Hlen.
  destruct (sliceTo i s) as [|c t] eqn:Es; [cbn in Hlen; lia|].
  pose proof (DecodeLastRuneInString_width c t) as Hw.
  destruct (Utf8.DecodeLastRuneInString (String c t)) as [r size].
  cbn [snd] in Hw. destruct (f r); [|reflexivity].
  apply IH; lia.
Qed.

Lemma lastStart_UTFMax (s : string) :
  let e := Z.of_nat (String.length s) in
  Utf8.lastStart (S Utf8.UTFMax) s (Z.max 0 (e - Z.of_nat Utf8.UTFMax)) (e - 2)
  = Utf8.lastStart Utf8.UTFMax s (Z.max 0 (e - Z.of_nat Utf8.UTFMax)) (e - 2).
Proof.
  intros e. apply lastStart_fuel. unfold Utf8.UTFMax. lia.
Qed.

(** ** The model on inputs with a known outcome *)

Example Match_star_within_segment :
  Match "a*/b" "abc/b" = MatchOk true /\ Match "a*/b" "a/c/b" = MatchOk false.
Proof. split; reflexivity. Qed.

Example Match_question_mark_and_class :
  Match "a?b" "a/b" = MatchOk false /\ Match "ab[b-d]" "abc" = MatchOk true
  /\ Match "ab[^c]" "abc" = MatchOk false /\ Match "a\*b" "a*b" = MatchOk true.
Proof. repeat split; reflexivity. Qed.

Example Match_bad_pattern :
  Match "a[" "a" = ErrBadPattern /\ Match "[]a]" "]" = ErrBadPattern.
Proof. split; reflexivity. Qed.

Example Base_examples :
  Base "" = "." /\ Base "dir/sub/c.log" = "c.log" /\ Base "a//b/" = "b"
  /\ Base "///" = "/".
Proof. repeat split; reflexivity. Qed.

Example Split_examples :
  Split "dir/sub/c.log" "/" = ["dir"; "sub"; "c.log"] /\ Split "" "/" = [""]
  /\ Split "a//" "/" = ["a"; ""; ""].
Proof. repeat split; reflexivity. Qed.

Example TrimSpace_examples :
  TrimSpace "  dist/  " = "dist/" /\ TrimSpace "   " = ""
  /\ TrimSpace "a b" = "a b".
Proof. repeat split; reflexivity. Qed.

Example getIgnorePatterns_sample :
  getIgnorePatterns joinName sampleOS "/proj" true = (["*.log"; "doc/*.txt"], None).
Proof. reflexivity. Qed.

Example collectTextFiles_sample :
  fst (collectTextFiles asciiToLower relBelow joinName sampleOS "/proj"
         sampleTree defaultIgnorePatterns)
  = (["/proj/README.md"; "/proj/src/main.x"], None).
Proof. reflexivity. Qed.

(** ** The glob that the built-in pattern [.*] becomes *)

Lemma regexPattern_star_log : regexPattern "*.log" = ".*\.log$".
Proof. reflexivity. Qed.

Lemma regexPattern_hidden : regexPattern ".*" = "^\..*".
Proof. reflexivity. Qed.

(** A name that starts with a dot fails the first chunk of the glob, whose
    first byte is a literal caret. *)
Lemma Match_hidden_glob_dotted (rest : string) :
  Match "^\..*" (String "." rest) = MatchOk false.
Proof. reflexivity. Qed.


(** ** Patterns without glob syntax *)

Lemma plain_Contains (q : string) :
  Contains q "*" = false -> Contains q "?" = false ->
  Contains q "[" = false -> Contains q "\" = false ->
  plain q = true.
Proof.
  induction q as [|c q IH]; [reflexivity|].
  rewrite !Contains_byte_cons. intros H1 H2 H3 H4.
  apply orb_false_elim in H1 as [H1 H1'], H2 as [H2 H2'],
    H3 as [H3 H3'], H4 as [H4 H4'].
  cbn [plain]. unfold isMeta. rewrite H1, H2, H3, H4. cbn. auto.
Qed.

Lemma plain_cons_inv (c : ascii) (q : string) :
  plain (String c q) = true ->
  Ascii.eqb c "*" = false /\ Ascii.eqb c "?" = false /\
  Ascii.eqb c "[" = false /\ Ascii.eqb c "\" = false /\ plain q = true.
Proof.
  cbn [plain]. unfold isMeta. intros H.
  apply andb_prop in H as [H Hq]. apply negb_true_iff in H.
  apply orb_false_elim in H as [H H4]. apply orb_false_elim in H as [H H3].
  apply orb_false_elim in H as [H1 H2]. auto.
Qed.

Lemma stripPrefix_nil_iff (q s : string) :
  stripPrefix q s = Some "" <-> s = q.
Proof.
  revert s; induction q as [|c q IH]; intros [|d s]; cbn; try (split; congruence).
  destruct (Ascii.eqb_spec c d) as [->|Hne].
  - rewrite IH. split; congruence.
  - split; congruence.
Qed.

Lemma scanBody_plain (q : string) :
  plain q = true -> scanBody false q = (q, "").
Proof.
  induction q as [|c q IH]; [reflexivity|]. intros H.
  apply plain_cons_inv in H as (H1 & H2 & H3 & H4 & Hq).
  cbn [scanBody]. rewrite H4, H3, H1.
  destruct (Ascii.eqb c "]"); now rewrite (IH Hq).
Qed.

Lemma dropStars_plain (q : string) :
  plain q = true -> dropStars q = (false, q).
Proof.
  destruct q as [|c q]; [reflexivity|]. intros H.
  apply plain_cons_inv in H as (H1 & _).
  apply Ascii.eqb_neq in H1.
  cbn [dropStars]. apply Ascii.eqb_neq in H1. now rewrite H1.
Qed.

Lemma scanChunk_plain (q : string) :
  plain q = true -> scanChunk q = (false, q, "").
Proof.
  intros H. unfold scanChunk. now rewrite dropStars_plain, scanBody_plain.
Qed.

(** A chunk without glob syntax matches exactly the names it is a prefix
    of, and leaves what follows. *)
Lemma matchChunkLoop_plain (q : string) :
  plain q = true ->
  forall fuel s failed,
    String.length q < fuel ->
    matchChunkLoop fuel q s failed =
    if failed then ChunkFailed
    else match stripPrefix q s with
         | Some t => ChunkRest t
         | None => ChunkFailed
         end.
Proof.
  induction q as [|c q IH]; intros Hq fuel s failed Hfuel.
  - destruct fuel; [inversion Hfuel|]. cbn. now destruct failed.
  - destruct fuel as [|fuel]; [inversion Hfuel|].
    apply plain_cons_inv in Hq as (H1 & H2 & H3 & H4 & Hq).
    cbn in Hfuel. apply PeanoNat.lt_S_n in Hfuel.
    cbn [matchChunkLoop]. rewrite H3, H2, H4.
    destruct failed; cbn [orb].
    + now rewrite (IH Hq).
    + destruct s as [|d s]; cbn [String.length Nat.eqb].
      * now rewrite (IH Hq).
      * rewrite (IH Hq) by assumption. cbn [stripPrefix].
        now destruct (Ascii.eqb c d).
Qed.

(** [filepath.Match] with a pattern without glob syntax is string
    equality. *)
Lemma Match_plain (q name : string) :
  plain q = true -> Match q name = MatchOk (String.eqb q name).
Proof.
  intros Hq. unfold Match. destruct q as [|c q].
  - cbn. now destruct name.
  - cbn [matchLoop]. rewrite (scanChunk_plain _ Hq). cbn [andb].
    unfold matchChunk. rewrite (matchChunkLoop_plain _ Hq) by apply PeanoNat.Nat.lt_succ_diag_r.
    cbn [String.length Nat.eqb negb orb].
    destruct (stripPrefix (String c q) name) as [t|] eqn:E.
    + destruct t as [|d t]; cbn [String.length Nat.eqb orb].
      * apply stripPrefix_nil_iff in E. subst name.
        now rewrite String.eqb_refl.
      * destruct (String.eqb_spec (String c q) name) as [<-|Hne]; [|reflexivity].
        assert (stripPrefix (String c q) (String c q) = Some "") as E'
          by now apply stripPrefix_nil_iff.
        congruence.
    + destruct (String.eqb_spec (String c q) name) as [<-|Hne]; [|reflexivity].
      assert (stripPrefix (String c q) (String c q) = Some "") as E'
        by now apply stripPrefix_nil_iff.
      congruence.
Qed.

(** ** The loops of [filepath.Match] never run out of fuel *)

Lemma sliceFrom_length (n : nat) (s : string) :
  String.length (sliceFrom n s) = String.length s - n.
Proof.
  revert s; induction n as [|n IH]; intros [|c s]; cbn; auto.
Qed.

Lemma DecodeRuneInString_width (c : ascii) (s : string) :
  1 <= snd (Utf8.DecodeRuneInString (String c s)).
Proof.
  unfold Utf8.DecodeRuneInString.
  destruct (byteN c <? Utf8.RuneSelf)%N; [cbn; lia|].
  destruct (Utf8.first (byteN c)) as [[[sz lo] hi]|]; [|cbn; lia].
  destruct s as [|c1 s]; [cbn; lia|].
  destruct (Utf8.outside lo hi c1); [cbn; lia|].
  destruct (sz <=? 2); [cbn; lia|].
  destruct s as [|c2 s]; [cbn; lia|].
  destruct (Utf8.outside 128 191 c2); [cbn; lia|].
  destruct (sz <=? 3); [cbn; lia|].
  destruct s as [|c3 s]; [cbn; lia|].
  destruct (Utf8.outside 128 191 c3); cbn; lia.
Qed.

Lemma getEsc_shorter (chunk : string) (r : N) (nchunk : string) :
  getEsc chunk = Some (r, nchunk) -> String.length nchunk < String.length chunk.
Proof.
  unfold getEsc. destruct chunk as [|c chunk]; [discriminate|].
  destruct (Ascii.eqb c "-" || Ascii.eqb c "]"); [discriminate|].
  set (body := if Ascii.eqb c "\" then chunk else String c chunk).
  assert (String.length body <= String.length (String c chunk)) as Hbody
    by (unfold body; destruct (Ascii.eqb c "\"); cbn; lia).
  destruct body as [|b body']; [discriminate|].
  pose proof (DecodeRuneInString_width b body') as Hw.
  destruct (Utf8.DecodeRuneInString (String b body')) as [r' n].
  destruct ((r' =? Utf8.RuneError)%N && (n =? 1)); [discriminate|].
  destruct (sliceFrom n (String b body')) as [|x y] eqn:E; [discriminate|].
  intros [= _ <-]. rewrite <- E, sliceFrom_length.
  cbn [snd] in Hw. cbn [String.length] in *. lia.
Qed.

Lemma classLoop_fuel (f1 : nat) :
  forall f2 chunk r mtch nrange,
    String.length chunk < f1 -> String.length chunk < f2 ->
    classLoop f1 chunk r mtch nrange = classLoop f2 chunk r mtch nrange.
Proof.
  induction f1 as [|f1 IH]; intros f2 chunk r mtch nrange H1 H2; [inversion H1|].
  destruct f2 as [|f2]; [inversion H2|].
  cbn [classLoop].
  destruct (getEsc chunk) as [[lo chunk1]|] eqn:E1; [|reflexivity].
  apply getEsc_shorter in E1.
  destruct (startsWith "-" chunk1).
  - destruct (getEsc (sliceFrom 1 chunk1)) as [[hi chunk3]|] eqn:E3; [|reflexivity].
    apply getEsc_shorter in E3. rewrite sliceFrom_length in E3.
    rewrite (IH f2) by lia. reflexivity.
  - rewrite (IH f2) by lia. reflexivity.
Qed.

Lemma classLoop_shorter (fuel : nat) :
  forall chunk r mtch nrange mtch' chunk',
    classLoop fuel chunk r mtch nrange = Some (mtch', chunk') ->
    String.length chunk' < String.length chunk.
Proof.
  induction fuel as [|fuel IH]; intros chunk r mtch nrange mtch' chunk'; [discriminate|].
  cbn [classLoop].
  destruct (startsWith "]" chunk && (0 <? nrange)) eqn:Eclose.
  - intros [= _ <-]. apply andb_prop in Eclose as [Eclose _].
    destruct chunk; [discriminate|]. cbn. lia.
  - destruct (getEsc chunk) as [[lo chunk1]|] eqn:E1; [|discriminate].
    apply getEsc_shorter in E1.
    destruct (startsWith "-" chunk1).
    + destruct (getEsc (sliceFrom 1 chunk1)) as [[hi chunk3]|] eqn:E3; [|discriminate].
      apply getEsc_shorter in E3. rewrite sliceFrom_length in E3.
      intros H. apply IH in H. lia.
    + intros H. apply IH in H. lia.
Qed.

Lemma matchChunkLoop_fuel (f1 : nat) :
  forall f2 chunk s failed,
    String.length chunk < f1 -> String.length chunk < f2 ->
    matchChunkLoop f1 chunk s failed = matchChunkLoop f2 chunk s failed.
Proof.
  induction f1 as [|f1 IH]; intros f2 chunk s failed H1 H2; [inversion H1|].
  destruct f2 as [|f2]; [inversion H2|].
  destruct chunk as [|c chunk1]; [reflexivity|].
  cbn in H1, H2. cbn [matchChunkLoop].
  destruct (Ascii.eqb c "[").
  - destruct (if failed || (String.length s =? 0) then _ else _) as [r s1].
    set (chunk2 := if startsWith "^" chunk1 then sliceFrom 1 chunk1 else chunk1).
    assert (String.length chunk2 <= String.length chunk1) as Hc2
      by (unfold chunk2; destruct (startsWith "^" chunk1);
          rewrite ?sliceFrom_length; lia).
    destruct (classLoop _ chunk2 r false 0) as [[mtch chunk3]|] eqn:E; [|reflexivity].
    apply classLoop_shorter in E. apply IH; lia.
  - destruct (Ascii.eqb c "?").
    + destruct (failed || (String.length s =? 0)); [apply IH; lia|].
      destruct s; apply IH; lia.
    + destruct (Ascii.eqb c "\").
      * destruct chunk1 as [|c' chunk2]; [reflexivity|]. cbn in H1, H2.
        destruct (failed || (String.length s =? 0)); [apply IH; lia|].
        destruct s; apply IH; lia.
      * destruct (failed || (String.length s =? 0)); [apply IH; lia|].
        destruct s; apply IH; lia.
Qed.

(** [matchChunk] with any sufficient fuel. *)
Lemma matchChunk_fuel (fuel : nat) (chunk s : string) :
  String.length chunk < fuel ->
  matchChunkLoop fuel chunk s false = matchChunk chunk s.
Proof.
  intros H. apply matchChunkLoop_fuel; [assumption|lia].
Qed.

Lemma dropStars_length (pattern : string) :
  String.length (snd (dropStars pattern)) <= String.length pattern
  /\ (fst (dropStars pattern) = true ->
      String.length (snd (dropStars pattern)) < String.length pattern)
  /\ startsWith "*" (snd (dropStars pattern)) = false.
Proof.
  induction pattern as [|c p (IH1 & IH2 & IH3)].
  - cbn. repeat split; [lia | discriminate].
  - cbn [dropStars]. destruct (Ascii.eqb c "*") eqn:E; cbn [fst snd String.length].
    + repeat split; [lia | intros _; lia | assumption].
    + repeat split; [lia | discriminate | cbn; assumption].
Qed.

Lemma scanBody_length_bounded (n : nat) :
  forall pattern inrange,
    String.length pattern <= n ->
    String.length (snd (scanBody inrange pattern)) <= String.length pattern.
Proof.
  induction n as [|n IH]; intros [|c p] inrange Hn; cbn in Hn; try (cbn; lia).
  cbn [scanBody].
  assert (forall b, String.length (snd (scanBody b p)) <= String.length p) as Hp
    by (intros; apply IH; lia).
  destruct (Ascii.eqb c "\").
  - destruct p as [|d p']; [cbn; lia|].
    specialize (IH p' inrange ltac:(cbn in Hn; lia)).
    destruct (scanBody inrange p'). cbn in *. lia.
  - destruct (Ascii.eqb c "[");
      [specialize (Hp true); destruct (scanBody true p); cbn in *; lia|].
    destruct (Ascii.eqb c "]");
      [specialize (Hp false); destruct (scanBody false p); cbn in *; lia|].
    destruct (Ascii.eqb c "*").
    + destruct inrange; [|cbn; lia].
      specialize (Hp true); destruct (scanBody true p); cbn in *; lia.
    + specialize (Hp inrange); destruct (scanBody inrange p); cbn in *; lia.
Qed.

Lemma scanBody_length (pattern : string) (inrange : bool) :
  String.length (snd (scanBody inrange pattern)) <= String.length pattern.
Proof. now apply (scanBody_length_bounded (String.length pattern)). Qed.

(** A pattern that does not start with a star has a non-empty first chunk. *)
Lemma scanBody_progress (c : ascii) (p : string) :
  Ascii.eqb c "*" = false ->
  String.length (snd (scanBody false (String c p))) < String.length (String c p)
  /\ fst (scanBody false (String c p)) <> "".
Proof.
  intros Hc. cbn [scanBody]. rewrite Hc.
  destruct (Ascii.eqb c "\").
  - destruct p as [|d p']; [cbn; split; [lia|discriminate]|].
    pose proof (scanBody_length p' false).
    destruct (scanBody false p'). cbn in *. split; [lia|discriminate].
  - destruct (Ascii.eqb c "[");
      [pose proof (scanBody_length p true); destruct (scanBody true p);
       cbn in *; split; [lia|discriminate]|].
    destruct (Ascii.eqb c "]");
      pose proof (scanBody_length p false); destruct (scanBody false p);
      cbn in *; (split; [lia|discriminate]).
Qed.

(** Every turn of the [Pattern] loop that goes on consumes pattern bytes. *)
Lemma scanChunk_progress (pattern : string) (star : bool) (chunk rest : string) :
  pattern <> "" ->
  scanChunk pattern = (star, chunk, rest) ->
  star && String.eqb chunk "" = false ->
  String.length rest < String.length pattern.
Proof.
  intros Hne. unfold scanChunk.
  destruct (dropStars_length pattern) as (Hle & Hlt & Hstar).
  destruct (dropStars pattern) as [st p] eqn:Ed. cbn [fst snd] in *.
  destruct p as [|c p'].
  - cbn. intros [= <- <- <-]. destruct st; [discriminate|].
    destruct pattern as [|x y]; [congruence|].
    cbn in Ed. destruct (Ascii.eqb x "*"); discriminate.
  - cbn [startsWith] in Hstar.
    destruct (scanBody_progress c p' Hstar) as [Hlen Hchunk].
    destruct (scanBody false (String c p')) as [ch rs]. cbn [fst snd] in *.
    intros [= <- <- <-] _. lia.
Qed.

Lemma starLoop_ext (k1 k2 : string -> MatchResult) (chunk : string)
    (lastChunk : bool) (name : string) :
  (forall t, k1 t = k2 t) ->
  starLoop k1 chunk lastChunk name = starLoop k2 chunk lastChunk name.
Proof.
  intros Hk. induction name as [|c name IH]; [reflexivity|].
  cbn [starLoop]. destruct (Ascii.eqb c Separator); [reflexivity|].
  destruct (matchChunk chunk name) as [| |t]; auto.
  destruct (lastChunk && negb (String.length t =? 0)); auto.
Qed.

Lemma matchLoop_fuel (f1 : nat) :
  forall f2 pattern name,
    String.length pattern < f1 -> String.length pattern < f2 ->
    matchLoop f1 pattern name = matchLoop f2 pattern name.
Proof.
  induction f1 as [|f1 IH]; intros f2 pattern name H1 H2; [inversion H1|].
  destruct f2 as [|f2]; [inversion H2|].
  destruct pattern as [|c p]; [reflexivity|].
  cbn [matchLoop].
  destruct (scanChunk (String c p)) as [[star chunk] rest] eqn:Es.
  destruct (star && String.eqb chunk "") eqn:Et; [reflexivity|].
  assert (String c p <> "") as Hne by discriminate.
  pose proof (scanChunk_progress _ _ _ _ Hne Es Et) as Hrest.
  assert (forall t, matchLoop f1 rest t = matchLoop f2 rest t) as Hk
    by (intros; apply IH; lia).
  rewrite (starLoop_ext _ _ chunk _ name Hk).
  destruct (matchChunk chunk name) as [| |t]; try reflexivity.
  destruct ((String.length t =? 0) || negb (String.length rest =? 0)); auto.
Qed.

(** [Match] is what the [Pattern] loop computes with any sufficient fuel:
    the bound [S (length pattern)] of the model is never reached. *)
Lemma Match_fuel (fuel : nat) (pattern name : string) :
  String.length pattern < fuel ->
  matchLoop fuel pattern name = Match pattern name.
Proof.
  intros H. apply matchLoop_fuel; [assumption|lia].
Qed.

(** ** The pattern matcher *)

Lemma matchesAnyPart_existsb (glob : string) (parts : list string) :
  matchesAnyPart glob parts = existsb (fun part => matched (Match glob part)) parts.
Proof.
  induction parts as [|part rest IH]; [reflexivity|].
  cbn [matchesAnyPart existsb]. rewrite IH.
  now destruct (matched (Match glob part)).
Qed.

(** The matcher is rule 2 followed by rule 3 or rule 4, the choice made by
    the presence of a star alone. *)
Lemma matchesGitIgnorePattern_rules (os : OS) (path pattern : string) :
  matchesGitIgnorePattern os path pattern =
  passesDirOnlyRule os path pattern
  && if Contains pattern "*"
     then wildcardProcedure (regexPattern (TrimSuffix pattern "/")) path
     else literalProcedure (TrimSuffix pattern "/") path.
Proof.
  unfold matchesGitIgnorePattern, passesDirOnlyRule, ToSlash.
  assert ((if HasSuffix pattern "/" then TrimSuffix pattern "/" else pattern)
          = TrimSuffix pattern "/") as ->
    by (destruct (HasSuffix pattern "/") eqn:E; [|rewrite TrimSuffix_id]; auto).
  rewrite (Contains_TrimSuffix_slash "*") by reflexivity.
  destruct (HasSuffix pattern "/" && negb (isDir os path)); [reflexivity|].
  cbn [negb andb].
  destruct (Contains pattern "*").
  - unfold wildcardProcedure. rewrite matchesAnyPart_existsb.
    now destruct (matched (Match _ path)).
  - unfold literalProcedure.
    destruct (String.eqb _ (Base path)); [reflexivity|].
    now destruct (String.eqb _ path).
Qed.

(** C1, evaluated on the code: the glob built for the pattern [*.log] is
    [.*\.log$], whose first chunk is a literal dot, so the matcher returns
    false for [a.log], [dir/b.log] and [dir/sub/c.log] (and for [a.logx]),
    whatever the directory flag of the path. *)
Theorem C1_star_log_matches_no_log_file (os : OS) :
  matchesGitIgnorePattern os "a.log" "*.log" = false
  /\ matchesGitIgnorePattern os "dir/b.log" "*.log" = false
  /\ matchesGitIgnorePattern os "dir/sub/c.log" "*.log" = false
  /\ matchesGitIgnorePattern os "a.logx" "*.log" = false.
Proof.
  rewrite !matchesGitIgnorePattern_rules.
  change (Contains "*.log" "*") with true. cbv iota.
  change (regexPattern (TrimSuffix "*.log" "/")) with ".*\.log$".
  repeat split; apply andb_false_intro2; vm_compute; reflexivity.
Qed.

(** C2: the built-in pattern [.*] matches no single-segment path that
    starts with a dot. *)
Theorem C2_hidden_pattern_matches_no_dotted_name (os : OS) (path : string) :
  HasPrefix path "." = true ->
  Contains path "/" = false ->
  matchesGitIgnorePattern os path ".*" = false.
Proof.
  intros Hdot Hslash.
  apply HasPrefix_byte_inv in Hdot as [rest ->].
  rewrite matchesGitIgnorePattern_rules.
  change (Contains ".*" "*") with true. cbv iota.
  change (regexPattern (TrimSuffix ".*" "/")) with "^\..*".
  unfold wildcardProcedure.
  rewrite (Split_without_separator "/" _ Hslash). cbn [existsb].
  rewrite Match_hidden_glob_dotted. apply andb_false_intro2. reflexivity.
Qed.

Lemma C2_witness_dot_git :
  HasPrefix ".git" "." = true /\ Contains ".git" "/" = false
  /\ matchesGitIgnorePattern sampleOS ".git" ".*" = false.
Proof.
  split; [reflexivity|]. split; [reflexivity|].
  apply (C2_hidden_pattern_matches_no_dotted_name sampleOS ".git"); reflexivity.
Defined.

(** C3, evaluated on the code: the wildcard branch is entered on a star
    alone, so the pattern [?.txt], which holds a question mark and no star,
    never reaches the per-segment test.  The wildcard procedure on the glob
    [?.txt] accepts [dir/a.txt] through its segment [a.txt]; the matcher
    returns false there, whatever the directory flag of the path, although
    it reads the question mark as a wildcard at the top level ([a.txt]
    matches) and finds the literal name [a.txt] below [dir] through the
    basename test. *)
Theorem C3_question_mark_pattern_misses_nested_file (os : OS) :
  Contains "?.txt" "?" = true
  /\ Contains "?.txt" "*" = false
  /\ wildcardProcedure "?.txt" "dir/a.txt" = true
  /\ matchesGitIgnorePattern os "dir/a.txt" "?.txt" = false
  /\ matchesGitIgnorePattern os "a.txt" "?.txt" = true
  /\ matchesGitIgnorePattern os "dir/a.txt" "a.txt" = true.
Proof.
  rewrite !matchesGitIgnorePattern_rules.
  repeat split; vm_compute; reflexivity.
Qed.

Lemma plain_TrimSuffix_slash (q : string) :
  plain q = true -> plain (TrimSuffix q "/") = true.
Proof.
  intros H. destruct (HasSuffix q "/") eqn:E; [|now rewrite TrimSuffix_id].
  rewrite (HasSuffix_split _ _ E) in H.
  induction (TrimSuffix q "/") as [|c t IH]; [reflexivity|].
  cbn [append plain] in *. apply andb_prop in H as [Hc Ht].
  now rewrite Hc, IH.
Qed.

(** C4, as amended: for a pattern with none of the bytes [*], [?], [[] and
    the backslash, the matcher returns true exactly when the directory-only
    rule lets the pattern through and the pattern, its trailing slash
    removed, equals the basename of the path or the path itself. *)
Theorem C4_plain_pattern_matches_by_equality (os : OS) (p q : string) :
  Contains q "*" = false -> Contains q "?" = false ->
  Contains q "[" = false -> Contains q "\" = false ->
  (matchesGitIgnorePattern os p q = true <->
   passesDirOnlyRule os p q = true
   /\ (TrimSuffix q "/" = Base p \/ TrimSuffix q "/" = p)).
Proof.
  intros H1 H2 H3 H4.
  pose proof (plain_TrimSuffix_slash _ (plain_Contains _ H1 H2 H3 H4)) as Hplain.
  rewrite matchesGitIgnorePattern_rules, H1. unfold literalProcedure.
  rewrite (Match_plain _ _ Hplain). cbn [matched].
  rewrite andb_true_iff, !orb_true_iff, !String.eqb_eq. tauto.
Qed.

Lemma C4_witness_readme :
  matchesGitIgnorePattern sampleOS "docs/README.md" "README.md" = true <->
  passesDirOnlyRule sampleOS "docs/README.md" "README.md" = true
  /\ (TrimSuffix "README.md" "/" = Base "docs/README.md"
      \/ TrimSuffix "README.md" "/" = "docs/README.md").
Proof.
  apply (C4_plain_pattern_matches_by_equality sampleOS "docs/README.md" "README.md");
    reflexivity.
Defined.

(** C4 as stated fails for a pattern with a bracket expression: [[a]] has
    neither a star nor a question mark, is neither the basename of the path
    [a] nor the path itself, and matches it through the final glob test. *)
Lemma C4_bracket_pattern_counterexample :
  Contains "[a]" "*" = false /\ Contains "[a]" "?" = false
  /\ String.eqb "[a]" (Base "a") = false /\ String.eqb "[a]" "a" = false
  /\ matchesGitIgnorePattern sampleOS "a" "[a]" = true.
Proof. vm_compute. repeat split. Qed.

(** C5: a directory-only pattern (one that ends with a slash) never matches
    a path whose directory flag is false. *)
Theorem C5_directory_only_pattern_needs_directory (os : OS) (p d : string) :
  HasSuffix d "/" = true ->
  isDir os p = false ->
  matchesGitIgnorePattern os p d = false.
Proof.
  intros Hd Hp. rewrite matchesGitIgnorePattern_rules.
  unfold passesDirOnlyRule. now rewrite Hd, Hp.
Qed.

Lemma C5_witness_node_modules_file :
  HasSuffix "node_modules/" "/" = true
  /\ isDir sampleOS "node_modules" = false
  /\ matchesGitIgnorePattern sampleOS "node_modules" "node_modules/" = false.
Proof.
  split; [reflexivity|]. split; [reflexivity|].
  apply (C5_directory_only_pattern_needs_directory sampleOS
           "node_modules" "node_modules/"); reflexivity.
Defined.

(** ** The content classifier *)

Lemma ratioCases_exact : forallb ratioExactOn ratioCases = true.
Proof. vm_compute. reflexivity. Qed.

(** On at most 512 bytes the binary64 comparison of the ratio with 0.3 is
    the exact comparison [10 * a > 3 * n]. *)
Lemma ratioAbove30_exact (a n : Z) :
  (0 <= a <= n)%Z -> (1 <= n <= 512)%Z ->
  ratioAbove30 a n = (3 * n <? 10 * a)%Z.
Proof.
  intros Ha Hn.
  pose proof (proj1 (forallb_forall _ _) ratioCases_exact (a, n)) as H.
  unfold ratioExactOn in H. cbn [fst snd] in H.
  apply Bool.eqb_prop, H.
  unfold ratioCases. apply in_flat_map.
  exists (Z.to_nat n). split.
  - apply in_seq. lia.
  - rewrite Z2Nat.id by lia.
    replace a with (Z.of_nat (Z.to_nat a)) at 1 by lia.
    apply (in_map (fun a => (Z.of_nat a, n))), in_seq. lia.
Qed.

Lemma signatureMatches_beginsWith (sig content : list byte) :
  signatureMatches sig content = beginsWith sig content.
Proof.
  revert content; induction sig as [|s sig IH]; intros [|c content]; cbn; auto.
  rewrite IH.
  destruct (Byte.eqb c s) eqn:E.
  - apply Byte.byte_dec_bl in E. subst. now rewrite (Byte.byte_dec_lb eq_refl).
  - destruct (Byte.eqb s c) eqn:E'; [|reflexivity].
    apply Byte.byte_dec_bl in E'. subst.
    now rewrite (Byte.byte_dec_lb eq_refl) in E.
Qed.

Lemma beginsWith_length (sig content : list byte) :
  beginsWith sig content = true -> List.length sig <= List.length content.
Proof.
  revert content; induction sig as [|s sig IH]; intros [|c content]; cbn;
    try discriminate; try lia.
  intros H. apply andb_prop in H as [_ H]. apply IH in H. lia.
Qed.

Lemma anySignature_existsb (sigs : list (list byte)) (content : list byte) :
  anySignature sigs content = existsb (fun sig => beginsWith sig content) sigs.
Proof.
  induction sigs as [|sig sigs IH]; [reflexivity|].
  cbn [anySignature existsb]. rewrite IH, signatureMatches_beginsWith.
  destruct (beginsWith sig content) eqn:E.
  - apply beginsWith_length, Nat.leb_le in E. now rewrite E.
  - now rewrite andb_false_r.
Qed.

(** Every signature has two bytes or more, so the guard
    [len(content) >= 2] of the signature loop excludes nothing. *)
Lemma signature_guard (content : list byte) :
  (2 <=? len content)%Z && anySignature binarySignatures content
  = hasSignature content.
Proof.
  rewrite anySignature_existsb. fold (hasSignature content).
  destruct (hasSignature content) eqn:E; [|apply andb_false_r].
  rewrite andb_true_r. apply Z.leb_le.
  unfold hasSignature in E. apply existsb_exists in E as (sig & Hin & Hsig).
  apply beginsWith_length in Hsig. unfold len.
  assert (2 <= List.length sig) as H2
    by (cbn in Hin; repeat destruct Hin as [<-|Hin]; cbn; lia).
  lia.
Qed.

Lemma zeroBytes_cons (b : byte) (content : list byte) :
  zeroBytes (b :: content) =
  ((if (Byte.to_N b =? 0)%N then 1 else 0) + zeroBytes content)%Z.
Proof.
  unfold zeroBytes, len. cbn [filter].
  destruct (Byte.to_N b =? 0)%N; cbn [List.length]; lia.
Qed.

Lemma highBytes_cons (b : byte) (content : list byte) :
  highBytes (b :: content) =
  ((if (127 <? Byte.to_N b)%N then 1 else 0) + highBytes content)%Z.
Proof.
  unfold highBytes, len. cbn [filter].
  destruct (127 <? Byte.to_N b)%N; cbn [List.length]; lia.
Qed.

Lemma zeroBytes_nonneg (content : list byte) : (0 <= zeroBytes content)%Z.
Proof. unfold zeroBytes, len. lia. Qed.

Lemma highBytes_bounds (content : list byte) :
  (0 <= highBytes content <= len content)%Z.
Proof.
  unfold highBytes, len. pose proof (filter_length_le (fun b => (127 <? Byte.to_N b)%N) content).
  lia.
Qed.

(** The counting loop returns early exactly at the second zero byte and
    otherwise counts the high bytes. *)
Lemma countLoop_counts (content : list byte) :
  forall nullCount nonAsciiCount,
    (0 <= nullCount <= 1)%Z ->
    countLoop content nullCount nonAsciiCount =
    if (2 <=? nullCount + zeroBytes content)%Z then None
    else Some (nonAsciiCount + highBytes content)%Z.
Proof.
  induction content as [|b content IH]; intros n a Hn.
  - cbn. destruct (2 <=? n + 0)%Z eqn:E; [apply Z.leb_le in E; lia|].
    f_equal. lia.
  - cbn [countLoop]. rewrite zeroBytes_cons, highBytes_cons.
    pose proof (zeroBytes_nonneg content) as Hz.
    destruct (Byte.to_N b =? 0)%N eqn:E0.
    + assert ((127 <? Byte.to_N b)%N = false) as ->
        by (apply N.eqb_eq in E0; rewrite E0; reflexivity).
      destruct (1 <? n + 1)%Z eqn:E1.
      * apply Z.ltb_lt in E1.
        destruct (2 <=? n + (1 + zeroBytes content))%Z eqn:E2; [reflexivity|].
        apply Z.leb_gt in E2. lia.
      * apply Z.ltb_ge in E1. rewrite IH by lia.
        replace (n + 1 + zeroBytes content)%Z with (n + (1 + zeroBytes content))%Z by lia.
        reflexivity.
    + destruct (127 <? Byte.to_N b)%N; rewrite IH by lia;
        replace (n + (0 + zeroBytes content))%Z with (n + zeroBytes content)%Z by lia;
        destruct (2 <=? n + zeroBytes content)%Z; try reflexivity; f_equal; lia.
Qed.

(** The classifier and the rule of the specification agree on every
    content of at most 512 bytes. *)
Lemma isBinaryContent_binaryBySpec (b : list byte) :
  List.length b <= 512 -> isBinaryContent b = binaryBySpec b.
Proof.
  intros Hlen. unfold isBinaryContent, binaryBySpec.
  rewrite signature_guard.
  destruct (hasSignature b); [reflexivity|]. cbn [orb].
  rewrite countLoop_counts by lia. cbn [Z.add].
  destruct (2 <=? zeroBytes b)%Z; [reflexivity|]. cbn [orb].
  pose proof (highBytes_bounds b) as Hh.
  destruct (0 <? len b)%Z eqn:E0.
  - apply Z.ltb_lt in E0.
    rewrite ratioAbove30_exact by (unfold len in *; lia).
    assert ((len b =? 0)%Z = false) as -> by (apply Z.eqb_neq; lia).
    reflexivity.
  - apply Z.ltb_ge in E0.
    assert ((len b =? 0)%Z = true) as -> by (apply Z.eqb_eq; unfold len in *; lia).
    reflexivity.
Qed.

Lemma printable_highBytes (b : list byte) :
  forallb printableOrZero b = true -> highBytes b = 0%Z.
Proof.
  induction b as [|x b IH]; [reflexivity|].
  cbn [forallb]. intros H. apply andb_prop in H as [Hx Hb].
  rewrite highBytes_cons, (IH Hb).
  unfold printableOrZero in Hx.
  destruct (127 <? Byte.to_N x)%N eqn:E; [|reflexivity].
  apply N.ltb_lt in E. apply orb_prop in Hx as [Hx|Hx].
  - apply N.eqb_eq in Hx. lia.
  - apply andb_prop in Hx as [_ Hx]. apply N.leb_le in Hx. lia.
Qed.

(** C6, as amended: on at most 512 bytes the classifier returns binary
    exactly when the content begins with one of the seven signatures, or
    holds two or more zero bytes, or is not empty and strictly more than 30%
    of its bytes are above 127; the empty content is text-eligible, and so
    is a content of printable ASCII bytes and exactly one zero byte that
    does not begin with a signature. *)
Theorem C6_binary_iff_signature_zeros_or_high_bytes (b : list byte) :
  List.length b <= 512 ->
  (isBinaryContent b = true <->
   hasSignature b = true
   \/ (2 <= zeroBytes b)%Z
   \/ (b <> [] /\ (3 * len b < 10 * highBytes b)%Z))
  /\ (b = [] -> isBinaryContent b = false)
  /\ (forallb printableOrZero b = true -> zeroBytes b = 1%Z ->
      hasSignature b = false -> isBinaryContent b = false).
Proof.
  intros Hlen. rewrite (isBinaryContent_binaryBySpec b Hlen).
  unfold binaryBySpec. repeat split.
  - intros H. apply orb_prop in H as [H|H]; [apply orb_prop in H as [H|H]|].
    + now left.
    + right; left. now apply Z.leb_le.
    + right; right. apply andb_prop in H as [H0 H1].
      apply negb_true_iff, Z.eqb_neq in H0. apply Z.ltb_lt in H1.
      split; [|assumption]. intros ->. now apply H0.
  - intros [H|[H|[H0 H1]]].
    + now rewrite H.
    + apply Z.leb_le in H. rewrite H. now rewrite orb_true_r.
    + apply Z.ltb_lt in H1. rewrite H1, andb_true_r.
      assert ((len b =? 0)%Z = false) as ->; [|apply orb_true_r].
      apply Z.eqb_neq. unfold len. destruct b; [congruence|cbn; lia].
  - intros ->. reflexivity.
  - intros Hp Hz Hs. rewrite Hs, Hz, (printable_highBytes b Hp).
    cbn [orb Z.leb Z.compare]. apply andb_false_intro2.
    apply Z.ltb_ge. unfold len. lia.
Qed.

Lemma C6_witness_text_with_one_zero :
  List.length [x68; x69; x00; x21] <= 512
  /\ forallb printableOrZero [x68; x69; x00; x21] = true
  /\ zeroBytes [x68; x69; x00; x21] = 1%Z
  /\ hasSignature [x68; x69; x00; x21] = false
  /\ isBinaryContent [x68; x69; x00; x21] = false.
Proof.
  assert (List.length [x68; x69; x00; x21] <= 512) as Hlen by (cbn; lia).
  split; [exact Hlen|]. split; [reflexivity|]. split; [reflexivity|].
  split; [reflexivity|].
  apply (proj2 (proj2 (C6_binary_iff_signature_zeros_or_high_bytes
                         [x68; x69; x00; x21] Hlen))); reflexivity.
Defined.

(** C6 as stated fails for its last part: the bytes [4D 5A 00] are
    printable ASCII with exactly one zero byte, and they classify as binary
    because they begin with the Windows PE signature [4D 5A]; the same holds
    for the PDF signature, which is printable too. *)
Lemma C6_printable_signature_counterexample :
  forallb printableOrZero [x4d; x5a; x00] = true
  /\ zeroBytes [x4d; x5a; x00] = 1%Z
  /\ isBinaryContent [x4d; x5a; x00] = true
  /\ forallb printableOrZero [x25; x50; x44; x46; x00] = true
  /\ zeroBytes [x25; x50; x44; x46; x00] = 1%Z
  /\ isBinaryContent [x25; x50; x44; x46; x00] = true.
Proof. vm_compute. repeat split. Qed.

Section ProgramProperties.

Variable ToLower : string -> string.
Variable Rel : string -> string -> error + string.
Variable Join : string -> string -> string.

Lemma hasSignature_png (rest : list byte) :
  hasSignature (x89 :: x50 :: x4e :: x47 :: rest) = true.
Proof. reflexivity. Qed.

(** C7: [isTextFile] returns what [verifyTextContent] returns, whatever the
    extension of the path; a file that opens and starts with the PNG
    signature [89 50 4E 47] is classified as binary under every name. *)
Theorem C7_isTextFile_is_verifyTextContent (os : OS) (path : string) :
  isTextFile ToLower os path = verifyTextContent os path
  /\ (forall rest,
        Open os path = inr (Readable (x89 :: x50 :: x4e :: x47 :: rest)) ->
        isTextFile ToLower os path = (false, None)).
Proof.
  assert (isTextFile ToLower os path = verifyTextContent os path) as E
    by (unfold isTextFile; now destruct (mapIndex textExtensions _)).
  split; [exact E|]. intros rest Hopen. rewrite E.
  unfold verifyTextContent. rewrite Hopen.
  cbn [Read firstn]. unfold isBinaryContent.
  now rewrite signature_guard, hasSignature_png.
Qed.

(** ** The ignore-set resolver *)

Lemma pewcLoop_filter (lines patterns : list string) :
  pewcLoop lines patterns
  = (patterns ++ filter keptLine (map TrimSpace lines))%list.
Proof.
  revert patterns; induction lines as [|line lines IH]; intros patterns.
  - cbn. now rewrite app_nil_r.
  - cbn [pewcLoop map filter].
    assert (keptLine (TrimSpace line)
            = negb (String.eqb (TrimSpace line) "" || HasPrefix (TrimSpace line) "#"))
      as -> by (unfold keptLine; now rewrite negb_orb).
    destruct (String.eqb (TrimSpace line) "" || HasPrefix (TrimSpace line) "#");
      cbn [negb]; rewrite IH; [reflexivity|].
    now rewrite <- app_assoc.
Qed.

(** C8: the resolved ignore set is the built-in list in its listed order
    when defaults are in use, followed by the lines of the file [.pewc] of
    the root directory, trimmed, the empty lines and those starting with the
    number sign discarded, in file order; an absent file contributes nothing
    and is no error, any other failure to read it is one. *)
Theorem C8_ignore_set_is_builtins_then_pewc_lines
    (os : OS) (rootDir : string) (useDefaults : bool) :
  getIgnorePatterns Join os rootDir (negb useDefaults) =
  match ReadFile os (Join rootDir ".pewc") with
  | inr content =>
    ((builtinsBySpec useDefaults ++ pewcPatternsBySpec content)%list, None)
  | inl err =>
    if IsNotExist err then (builtinsBySpec useDefaults, None)
    else ([], Some (Errorf "error reading .pewc file" (OfOs err)))
  end.
Proof.
  unfold getIgnorePatterns, readPewcFile, builtinsBySpec, pewcPatternsBySpec.
  rewrite negb_involutive.
  destruct (ReadFile os (Join rootDir ".pewc")) as [err|content].
  - destruct (IsNotExist err); [|reflexivity].
    destruct useDefaults; cbn [app]; now rewrite ?app_nil_r.
  - rewrite pewcLoop_filter. destruct useDefaults; reflexivity.
Qed.

(** ** Membership in the ignore set *)

Lemma ignoredLoop_existsb (os : OS) (relPath : string) (patterns : list string) :
  ignoredLoop os relPath patterns
  = existsb (matchesGitIgnorePattern os relPath) patterns.
Proof.
  induction patterns as [|q patterns IH]; [reflexivity|].
  cbn [ignoredLoop existsb]. rewrite IH.
  now destruct (matchesGitIgnorePattern os relPath q).
Qed.

Lemma isPathIgnored_existsb (os : OS) (path rootDir : string)
    (patterns : list string) :
  isPathIgnored Rel os path rootDir patterns
  = existsb (matchesGitIgnorePattern os (relPathOf Rel rootDir path)) patterns.
Proof.
  unfold isPathIgnored. rewrite ignoredLoop_existsb.
  now destruct patterns.
Qed.

Lemma existsb_Permutation {A : Type} (f : A -> bool) (l l' : list A) :
  Permutation l l' -> existsb f l = existsb f l'.
Proof.
  induction 1 as [|x l l' _ IH|x y l|l l' l'' _ IH1 _ IH2]; cbn.
  - reflexivity.
  - now rewrite IH.
  - now destruct (f x), (f y).
  - congruence.
Qed.

(** C9: a path is ignored exactly when some pattern of the list matches its
    root-relative path; the empty list ignores nothing; the result does not
    depend on the order of the patterns. *)
Theorem C9_ignored_iff_some_pattern_matches
    (os : OS) (path rootDir : string) (patterns : list string) :
  (isPathIgnored Rel os path rootDir patterns = true <->
   exists pattern,
     In pattern patterns
     /\ matchesGitIgnorePattern os (relPathOf Rel rootDir path) pattern = true)
  /\ isPathIgnored Rel os path rootDir [] = false
  /\ (forall patterns',
        Permutation patterns patterns' ->
        isPathIgnored Rel os path rootDir patterns'
        = isPathIgnored Rel os path rootDir patterns).
Proof.
  repeat split.
  - rewrite isPathIgnored_existsb. intros H. now apply existsb_exists in H.
  - rewrite isPathIgnored_existsb. intros H. now apply existsb_exists.
  - intros patterns' Hperm. rewrite !isPathIgnored_existsb.
    symmetry. now apply existsb_Permutation.
Qed.

End ProgramProperties.

Lemma C7_witness_png_named_as_text :
  isTextFile asciiToLower sampleOS "/proj/logo.png" = (false, None).
Proof.
  apply (proj2 (C7_isTextFile_is_verifyTextContent asciiToLower sampleOS
                  "/proj/logo.png") [x0d; x0a]).
  reflexivity.
Defined.

Lemma C9_witness_reordered_patterns :
  isPathIgnored relBelow sampleOS "/proj/README.md" "/proj" ["README.md"; "dist/"]
  = isPathIgnored relBelow sampleOS "/proj/README.md" "/proj" ["dist/"; "README.md"].
Proof.
  apply (proj2 (proj2 (C9_ignored_iff_some_pattern_matches relBelow sampleOS
                         "/proj/README.md" "/proj" ["dist/"; "README.md"]))).
  apply perm_swap.
Defined.

(** ** The directory walk *)

Section WalkProperties.

Variable ToLower : string -> string.
Variable Rel : string -> string -> error + string.
Variable Join : string -> string -> string.
Variable os : OS.
Variable rootDir : string.
Variable ignorePatterns : list string.

Abbreviation walkFn := (collectFn ToLower Rel os rootDir ignorePatterns).
Abbreviation ignored := (ignoredBy Rel os rootDir ignorePatterns).
Abbreviation textEligible := (classifiedAsText ToLower os).

Lemma collectFn_failure (path : string) (info : option FileInfo) (e : error)
    (st : WalkState) :
  walkFn path info (Some e) st = (st, Some e).
Proof. reflexivity. Qed.

Lemma collectFn_directory (path : string) (st : WalkState) :
  walkFn path (Some {| IsDir := true |}) None st
  = (st, if ignored path then Some SkipDir else None).
Proof.
  unfold collectFn, ignoredBy. cbn [IsDir].
  now destruct (isPathIgnored Rel os path rootDir ignorePatterns).
Qed.

Lemma collectFn_file (path : string) (st : WalkState) :
  exists st',
    walkFn path (Some {| IsDir := false |}) None st = (st', None)
    /\ fileList st' =
       (fileList st
        ++ if ignored path then [] else if textEligible path then [path] else [])%list.
Proof.
  unfold collectFn, ignoredBy, classifiedAsText, textEligibleBy. cbn [IsDir].
  destruct (isPathIgnored Rel os path rootDir ignorePatterns).
  - exists st. now rewrite app_nil_r.
  - destruct (isTextFile ToLower os path) as [isText [e|]].
    + eexists. split; [reflexivity|]. cbn. now rewrite app_nil_r.
    + destruct isText; eexists; (split; [reflexivity|]); cbn;
        now rewrite ?app_nil_r.
Qed.

Lemma entriesLoop_outcome (path : string)
    (entries : list (string * (OsError + Node))) :
  Forall (fun entry =>
            match snd entry with
            | inl _ => True
            | inr child =>
              forall p st,
                walkOutcome (walkFailure Join ignored p child)
                  (eligibleFiles Join ignored textEligible p child)
                  (ignored p && IsDir (nodeInfo child)) st
                  (walk Join walkFn p child st)
            end) entries ->
  forall st,
    walkOutcome
      (firstSome (fun entry =>
                    match snd entry with
                    | inl e => Some e
                    | inr child => walkFailure Join ignored (Join path (fst entry)) child
                    end) entries)
      (flat_map (fun entry =>
                   match snd entry with
                   | inl _ => []
                   | inr child =>
                     eligibleFiles Join ignored textEligible (Join path (fst entry)) child
                   end) entries)
      false st
      (entriesLoop Join (walk Join walkFn) walkFn path entries st).
Proof.
  induction 1 as [|[name [e|child]] entries Hchild _ IH]; intros st.
  - cbn. now rewrite app_nil_r.
  - cbn [entriesLoop firstSome snd fst]. rewrite collectFn_failure.
    cbn. reflexivity.
  - cbn [entriesLoop firstSome flat_map snd fst] in *.
    specialize (Hchild (Join path name) st). unfold walkOutcome in Hchild.
    destruct (walk Join walkFn (Join path name) child st) as [st' err].
    cbn [fst snd] in Hchild.
    destruct (walkFailure Join ignored (Join path name) child) as [e|].
    + subst err. cbn. now rewrite orb_true_r.
    + destruct Hchild as [Hfiles ->].
      assert (walkOutcome
                (firstSome (fun entry =>
                    match snd entry with
                    | inl e => Some e
                    | inr child => walkFailure Join ignored (Join path (fst entry)) child
                    end) entries)
                (flat_map (fun entry =>
                   match snd entry with
                   | inl _ => []
                   | inr child =>
                     eligibleFiles Join ignored textEligible (Join path (fst entry)) child
                   end) entries)
                false st'
                (entriesLoop Join (walk Join walkFn) walkFn path entries st')) as Hrest
        by apply IH.
      assert ((if ignored (Join path name) && IsDir (nodeInfo child)
               then Some SkipDir else None) = None
              \/ (IsDir (nodeInfo child) = true
                  /\ (if ignored (Join path name) && IsDir (nodeInfo child)
                      then Some SkipDir else None) = Some SkipDir)) as [->| [Hd ->]]
        by (destruct (ignored (Join path name)), (IsDir (nodeInfo child)); auto).
      * unfold walkOutcome in *.
        destruct (firstSome _ entries); [assumption|].
        destruct Hrest as [Hf He]. split; [|assumption].
        now rewrite Hf, Hfiles, app_assoc.
      * rewrite Hd. cbn [negb orb isSkipDir]. unfold walkOutcome in *.
        destruct (firstSome _ entries); [assumption|].
        destruct Hrest as [Hf He]. split; [|assumption].
        now rewrite Hf, Hfiles, app_assoc.
Qed.

Lemma walk_outcome (node : Node) :
  forall path st,
    walkOutcome (walkFailure Join ignored path node)
      (eligibleFiles Join ignored textEligible path node)
      (ignored path && IsDir (nodeInfo node)) st
      (walk Join walkFn path node st).
Proof.
  induction node as [|e|entries IH] using Node_induction; intros path st.
  - cbn [walk walkFailure eligibleFiles nodeInfo IsDir].
    destruct (collectFn_file path st) as (st' & -> & Hfiles).
    unfold walkOutcome. cbn [fst snd]. rewrite andb_false_r. now split.
  - cbn [walk walkFailure nodeInfo]. rewrite collectFn_failure. reflexivity.
  - cbn [walk walkFailure eligibleFiles nodeInfo IsDir].
    rewrite collectFn_directory, andb_true_r.
    destruct (ignored path).
    + unfold walkOutcome. cbn. now rewrite app_nil_r.
    + apply (entriesLoop_outcome path entries IH st).
Qed.

(** [collectTextFiles] fails exactly when the walk meets a failure of
    [Lstat] or of a directory listing; otherwise it returns the eligible
    files, sorted. *)
Lemma collectTextFiles_outcome (tree : OsError + Node) :
  fst (collectTextFiles ToLower Rel Join os rootDir tree ignorePatterns) =
  match treeFailure Join ignored rootDir tree with
  | Some e => ([], Some (Errorf "error walking directory" (OfOs e)))
  | None => (sortStrings (treeEligible Join ignored textEligible rootDir tree), None)
  end.
Proof.
  unfold collectTextFiles, Walk.
  destruct tree as [e|node]; cbn [treeFailure treeEligible].
  - rewrite collectFn_failure. reflexivity.
  - pose proof (walk_outcome node rootDir {| fileList := []; output := [] |}) as H.
    unfold walkOutcome in H.
    destruct (walk Join walkFn rootDir node _) as [st err]. cbn [fst snd] in H.
    destruct (walkFailure Join ignored rootDir node) as [e|].
    + subst err. reflexivity.
    + destruct H as [Hf ->]. cbn [app fileList] in Hf.
      destruct (ignored rootDir && IsDir (nodeInfo node)); cbn; now rewrite Hf.
Qed.

(** Only files that the classifier accepted without an error are eligible:
    a file that cannot be opened or read is left out. *)
Lemma eligibleFiles_classified (node : Node) :
  forall path file,
    In file (eligibleFiles Join ignored textEligible path node) ->
    isTextFile ToLower os file = (true, None).
Proof.
  induction node as [|e|entries IH] using Node_induction; intros path file.
  - cbn [eligibleFiles]. destruct (ignored path); [intros []|].
    destruct (textEligible path) eqn:E; [|intros []].
    intros [<-|[]]. unfold classifiedAsText, textEligibleBy in E.
    destruct (isTextFile ToLower os path) as [isText [err|]]; congruence.
  - intros [].
  - cbn [eligibleFiles]. destruct (ignored path); [intros []|].
    intros H. apply in_flat_map in H as ([name [e|child]] & Hin & Hfile);
      cbn [fst snd] in Hfile; [destruct Hfile|].
    rewrite Forall_forall in IH. apply (IH _ Hin _ _ Hfile).
Qed.

End WalkProperties.

(** [sort.Strings] returns its argument reordered and in increasing
    order. *)
Lemma insertString_Permutation (x : string) (l : list string) :
  Permutation (x :: l) (insertString x l).
Proof.
  induction l as [|y l IH]; [reflexivity|].
  cbn [insertString]. destruct (String.leb x y); [reflexivity|].
  rewrite perm_swap. now apply perm_skip.
Qed.

Lemma sortStrings_Permutation (l : list string) : Permutation l (sortStrings l).
Proof.
  induction l as [|x l IH]; [reflexivity|].
  cbn [sortStrings]. rewrite <- insertString_Permutation. now apply perm_skip.
Qed.

Lemma insertString_Sorted (x : string) (l : list string) :
  Sorted (fun a b => String.leb a b = true) l ->
  Sorted (fun a b => String.leb a b = true) (insertString x l).
Proof.
  induction 1 as [|y l Hsorted IH Hhd]; [repeat constructor|].
  cbn [insertString]. destruct (String.leb x y) eqn:E.
  - repeat constructor; assumption.
  - constructor; [assumption|].
    assert (String.leb y x = true) as Hyx
      by (destruct (String.leb_total x y); congruence).
    destruct l as [|z l]; cbn [insertString] in *; [now constructor|].
    destruct (String.leb x z); constructor; [assumption|].
    now inversion Hhd.
Qed.

Lemma sortStrings_Sorted (l : list string) :
  Sorted (fun a b => String.leb a b = true) (sortStrings l).
Proof.
  induction l as [|x l IH]; [constructor|]. now apply insertString_Sorted.
Qed.

(** C10, as amended: when every [Lstat] and every directory listing that
    the walk meets succeeds, [collectTextFiles] returns successfully
    whatever files fail to open or to read; such a file is skipped and the
    result is the sorted list of the other eligible files, each of them
    classified as text without an error.  The walk as a whole fails exactly
    when an [Lstat] or a directory listing fails, at the root or at any
    entry it reaches below it. *)
Theorem C10_walk_survives_unreadable_files
    (ToLower : string -> string) (Rel : string -> string -> error + string)
    (Join : string -> string -> string) (os : OS) (rootDir : string)
    (tree : OsError + Node) (ignorePatterns : list string) :
  (treeFailure Join (ignoredBy Rel os rootDir ignorePatterns) rootDir tree = None ->
   exists files,
     fst (collectTextFiles ToLower Rel Join os rootDir tree ignorePatterns)
     = (files, None)
     /\ files = sortStrings
                  (treeEligible Join (ignoredBy Rel os rootDir ignorePatterns)
                     (classifiedAsText ToLower os) rootDir tree)
     /\ forall file, In file files -> isTextFile ToLower os file = (true, None))
  /\ (forall e,
        treeFailure Join (ignoredBy Rel os rootDir ignorePatterns) rootDir tree
        = Some e ->
        fst (collectTextFiles ToLower Rel Join os rootDir tree ignorePatterns)
        = ([], Some (Errorf "error walking directory" (OfOs e)))).
Proof.
  rewrite collectTextFiles_outcome. split.
  - intros ->. eexists. split; [reflexivity|]. split; [reflexivity|].
    intros file Hin.
    apply (Permutation_in _ (Permutation_sym (sortStrings_Permutation _))) in Hin.
    destruct tree as [e|node]; [destruct Hin|].
    now apply (eligibleFiles_classified ToLower Rel Join os rootDir
                 ignorePatterns node rootDir).
  - now intros e ->.
Qed.

Lemma C10_witness_locked_file_skipped :
  treeFailure joinName (ignoredBy relBelow sampleOS "/proj" defaultIgnorePatterns)
    "/proj" sampleTree = None
  /\ Open sampleOS "/proj/locked"
     = inl (OtherOsError "open /proj/locked: permission denied")
  /\ exists files,
       fst (collectTextFiles asciiToLower relBelow joinName sampleOS "/proj"
              sampleTree defaultIgnorePatterns) = (files, None)
       /\ files = sortStrings
                    (treeEligible joinName
                       (ignoredBy relBelow sampleOS "/proj" defaultIgnorePatterns)
                       (classifiedAsText asciiToLower sampleOS) "/proj" sampleTree)
       /\ forall file, In file files ->
                       isTextFile asciiToLower sampleOS file = (true, None).
Proof.
  split; [reflexivity|]. split; [reflexivity|].
  apply (proj1 (C10_walk_survives_unreadable_files asciiToLower relBelow
                  joinName sampleOS "/proj" sampleTree defaultIgnorePatterns)).
  reflexivity.
Defined.

(** C10 as stated fails below a readable root: a sub-directory that cannot
    be listed, or a single entry that cannot be statted, makes the whole
    traversal fail, since the callback returns every error the walk hands
    it. *)
Lemma C10_unlistable_subdirectory_counterexample :
  fst (collectTextFiles asciiToLower relBelow joinName sampleOS "/proj"
         unlistableSubdirTree [])
  = ([], Some (Errorf "error walking directory"
                 (OfOs (OtherOsError "open /proj/sub: permission denied"))))
  /\ fst (collectTextFiles asciiToLower relBelow joinName sampleOS "/proj"
            vanishedEntryTree [])
     = ([], Some (Errorf "error walking directory"
                    (OfOs (NotExist "lstat /proj/gone.txt: no such file or directory")))).
Proof. vm_compute. split; reflexivity. Qed.

(** ** The sanitizers *)

Example box_drawing_bytes :
  list_byte_of_string boxTee = [xe2; x94; x9c]
  /\ list_byte_of_string boxDash = [xe2; x94; x80]
  /\ list_byte_of_string boxCorner = [xe2; x94; x94].
Proof. repeat split; reflexivity. Qed.

Example sanitizeContent_tree_line :
  sanitizeContent "├── src" = "|-- src" /\ sanitizeContent "└── a.go" = "`-- a.go".
Proof. split; reflexivity. Qed.

Lemma sanitizeLoop_clean (s : string) :
  allBytes (fun c => negb (isDroppedControl c)) (sanitizeLoop s) = true.
Proof.
  induction s as [|c s IH]; [reflexivity|].
  cbn [sanitizeLoop]. destruct (isDroppedControl c) eqn:E; [assumption|].
  cbn [allBytes]. now rewrite E, IH.
Qed.

Lemma sanitizeLoop_length (s : string) :
  String.length (sanitizeLoop s) <= String.length s.
Proof.
  induction s as [|c s IH]; [reflexivity|].
  cbn [sanitizeLoop]. destruct (isDroppedControl c); cbn [String.length]; lia.
Qed.

Lemma sanitizeLoop_fixed_iff (s : string) :
  sanitizeLoop s = s <-> allBytes (fun c => negb (isDroppedControl c)) s = true.
Proof.
  induction s as [|c s IH]; [split; reflexivity|].
  cbn [sanitizeLoop allBytes]. destruct (isDroppedControl c) eqn:E; cbn [negb andb].
  - split; [|discriminate]. intros H.
    pose proof (sanitizeLoop_length s) as Hlen. rewrite H in Hlen.
    cbn [String.length] in Hlen. lia.
  - rewrite <- IH. split; [now intros [= ->]|now intros ->].
Qed.

Lemma sanitizeLoop_app (a b : string) :
  sanitizeLoop (a ++ b) = sanitizeLoop a ++ sanitizeLoop b.
Proof.
  induction a as [|c a IH]; [reflexivity|].
  cbn [append sanitizeLoop]. destruct (isDroppedControl c); [assumption|].
  cbn [append]. now rewrite IH.
Qed.

Lemma string_of_list_byte_app (a b : list byte) :
  string_of_list_byte (a ++ b) = string_of_list_byte a ++ string_of_list_byte b.
Proof.
  unfold string_of_list_byte. rewrite map_app.
  induction (map ascii_of_byte a) as [|c l IH]; [reflexivity|].
  cbn. now rewrite IH.
Qed.

(** X1: the output of [sanitizeFileContent] holds no control byte (a value
    below 32) other than the line feed, the tab and the carriage return. *)
Theorem X1_sanitizeFileContent_has_no_control_bytes (content : list byte) :
  allBytes (fun c => (32 <=? byteN c)%N
                     || Ascii.eqb c (ascii_of_nat 10)
                     || Ascii.eqb c (ascii_of_nat 9)
                     || Ascii.eqb c (ascii_of_nat 13))
    (sanitizeFileContent content) = true.
Proof.
  unfold sanitizeFileContent.
  pose proof (sanitizeLoop_clean (string_of_list_byte content)) as H.
  induction (sanitizeLoop (string_of_list_byte content)) as [|c s IH];
    [reflexivity|].
  cbn [allBytes] in *. apply andb_prop in H as [Hc Hs].
  rewrite (IH Hs), andb_true_r. unfold isDroppedControl in Hc.
  rewrite N.leb_antisym.
  destruct (byteN c <? 32)%N, (Ascii.eqb c (ascii_of_nat 10)),
    (Ascii.eqb c (ascii_of_nat 9)), (Ascii.eqb c (ascii_of_nat 13));
    cbn in *; congruence.
Qed.

(** X2: [sanitizeFileContent] returns the content unchanged exactly when
    the content holds none of the control bytes it drops; in particular
    sanitizing its own output changes nothing. *)
Theorem X2_sanitizeFileContent_fixed_points (content : list byte) :
  (sanitizeFileContent content = string_of_list_byte content <->
   forallb (fun b => negb (isDroppedControl (ascii_of_byte b))) content = true)
  /\ sanitizeFileContent (list_byte_of_string (sanitizeFileContent content))
     = sanitizeFileContent content.
Proof.
  unfold sanitizeFileContent. split.
  - rewrite sanitizeLoop_fixed_iff. unfold string_of_list_byte.
    induction content as [|b content IH]; [split; reflexivity|].
    cbn [map string_of_list_ascii allBytes forallb].
    rewrite !andb_true_iff, IH. reflexivity.
  - rewrite string_of_list_byte_of_string.
    apply sanitizeLoop_fixed_iff, sanitizeLoop_clean.
Qed.

(** X3: sanitizing a concatenation is concatenating the sanitized parts:
    whether a byte is kept does not depend on its neighbours. *)
Theorem X3_sanitizeFileContent_app (a b : list byte) :
  sanitizeFileContent (a ++ b) = sanitizeFileContent a ++ sanitizeFileContent b.
Proof.
  unfold sanitizeFileContent.
  now rewrite string_of_list_byte_app, sanitizeLoop_app.
Qed.

(** *** Replacing a sequence by one byte that is foreign to it *)

Lemma HasPrefix_nil (s : string) : HasPrefix s "" = true.
Proof. unfold HasPrefix. now destruct s. Qed.

Lemma HasPrefix_cons (c o : ascii) (s q : string) :
  HasPrefix (String c s) (String o q) = Ascii.eqb c o && HasPrefix s q.
Proof.
  unfold HasPrefix. cbn [String.length sliceTo Nat.leb String.eqb].
  destruct (Ascii.eqb c o); [reflexivity|].
  now rewrite andb_false_r.
Qed.

Lemma HasPrefix_empty (q : string) : HasPrefix "" q = String.eqb q "".
Proof. now destruct q. Qed.

Lemma Contains_tail (c : ascii) (s p : string) :
  Contains s p = true -> Contains (String c s) p = true.
Proof. intros H. cbn [Contains]. rewrite H. apply orb_true_r. Qed.

Lemma Contains_sliceFrom (k : nat) (s p : string) :
  Contains (sliceFrom k s) p = true -> Contains s p = true.
Proof.
  revert s; induction k as [|k IH]; intros [|c s]; cbn [sliceFrom]; auto.
  intros H. apply Contains_tail. now apply IH.
Qed.

Lemma replaceScan_skip (old new : string) (k : nat) (s : string) :
  replaceScan old new k s = replaceScan old new 0 (sliceFrom k s).
Proof.
  revert s; induction k as [|k IH]; intros [|c s]; cbn [sliceFrom replaceScan];
    auto.
Qed.

(** A sequence that avoids the byte [n] is no prefix of a string that
    starts with [n]. *)
Lemma HasPrefix_foreign_head (n : ascii) (q x : string) :
  q <> "" -> Contains q (String n "") = false ->
  HasPrefix (String n x) q = false.
Proof.
  destruct q as [|o q]; [congruence|]. intros _ Hq.
  rewrite Contains_byte_cons in Hq. apply orb_false_elim in Hq as [Ho _].
  now rewrite HasPrefix_cons, Ascii.eqb_sym, Ho.
Qed.

Section ReplaceByForeignByte.

Variable old : string.
Variable n : ascii.

(** The scan either replaces an occurrence at the front by the byte [n]
    and goes on behind it, or keeps the first byte. *)
Lemma ReplaceAll_cons (c : ascii) (s : string) :
  ReplaceAll (String c s) old (String n "") =
  if HasPrefix (String c s) old
  then String n (ReplaceAll (sliceFrom (String.length old - 1) s) old (String n ""))
  else String c (ReplaceAll s old (String n "")).
Proof.
  unfold ReplaceAll. cbn [replaceScan].
  destruct (HasPrefix (String c s) old); [|reflexivity].
  now rewrite replaceScan_skip.
Qed.

(** A prefix of the output that avoids the byte [n] is a prefix of the
    input. *)
Lemma ReplaceAll_prefix (q : string) :
  Contains q (String n "") = false ->
  forall s,
    HasPrefix (ReplaceAll s old (String n "")) q = true -> HasPrefix s q = true.
Proof.
  induction q as [|o q IH]; intros Hq s H; [apply HasPrefix_nil|].
  rewrite Contains_byte_cons in Hq. apply orb_false_elim in Hq as [Ho Hq].
  destruct s as [|c s]; [discriminate|].
  rewrite ReplaceAll_cons in H.
  destruct (HasPrefix (String c s) old).
  - rewrite HasPrefix_cons in H. apply andb_prop in H as [H _].
    rewrite Ascii.eqb_sym in H. congruence.
  - rewrite HasPrefix_cons in *. apply andb_prop in H as [Hc H].
    now rewrite Hc, (IH Hq s H).
Qed.

(** An occurrence in the output of a sequence that avoids the byte [n]
    was in the input. *)
Lemma ReplaceAll_Contains_bounded (p : string) (bound : nat) :
  Contains p (String n "") = false ->
  forall s,
    String.length s <= bound ->
    Contains (ReplaceAll s old (String n "")) p = true -> Contains s p = true.
Proof.
  intros Hp. induction bound as [|bound IH]; intros [|c s] Hlen; cbn in Hlen;
    try lia; try (cbn; tauto).
  rewrite ReplaceAll_cons. destruct (HasPrefix (String c s) old) eqn:E.
  - cbn [Contains]. intros H. apply orb_prop in H as [H|H].
    + destruct p as [|o p]; [now rewrite HasPrefix_nil|].
      rewrite HasPrefix_foreign_head in H; [discriminate|discriminate|assumption].
    + apply orb_true_iff. right.
      apply (Contains_sliceFrom (String.length old - 1)), IH; [|assumption].
      rewrite sliceFrom_length. lia.
  - intros H. change (Contains (String c (ReplaceAll s old (String n ""))) p)
      with (HasPrefix (String c (ReplaceAll s old (String n ""))) p
            || Contains (ReplaceAll s old (String n "")) p) in H.
    apply orb_prop in H as [H|H].
    + cbn [Contains]. apply orb_true_iff. left.
      apply (ReplaceAll_prefix p Hp (String c s)).
      now rewrite ReplaceAll_cons, E.
    + apply Contains_tail, IH; [lia|assumption].
Qed.

Lemma ReplaceAll_Contains (p s : string) :
  Contains p (String n "") = false ->
  Contains (ReplaceAll s old (String n "")) p = true -> Contains s p = true.
Proof.
  intros Hp. now apply (ReplaceAll_Contains_bounded p (String.length s)).
Qed.

(** No occurrence of [old] is left in the output. *)
Lemma ReplaceAll_removes_bounded (bound : nat) :
  old <> "" -> Contains old (String n "") = false ->
  forall s,
    String.length s <= bound ->
    Contains (ReplaceAll s old (String n "")) old = false.
Proof.
  intros Hne Hn. induction bound as [|bound IH]; intros [|c s] Hlen;
    cbn in Hlen; try lia;
    try (cbn; rewrite HasPrefix_empty; now destruct old).
  rewrite ReplaceAll_cons. destruct (HasPrefix (String c s) old) eqn:E.
  - cbn [Contains]. rewrite IH by (rewrite sliceFrom_length; lia).
    rewrite orb_false_r. now apply HasPrefix_foreign_head.
  - change (Contains (String c (ReplaceAll s old (String n ""))) old)
      with (HasPrefix (String c (ReplaceAll s old (String n ""))) old
            || Contains (ReplaceAll s old (String n "")) old).
    rewrite IH by lia. rewrite orb_false_r.
    destruct (HasPrefix (String c (ReplaceAll s old (String n ""))) old) eqn:E';
      [|reflexivity].
    assert (HasPrefix (String c s) old = true); [|congruence].
    apply (ReplaceAll_prefix old Hn). now rewrite ReplaceAll_cons, E.
Qed.

Lemma ReplaceAll_removes (s : string) :
  old <> "" -> Contains old (String n "") = false ->
  Contains (ReplaceAll s old (String n "")) old = false.
Proof.
  intros Hne Hn. now apply (ReplaceAll_removes_bounded (String.length s)).
Qed.

(** A string without an occurrence of [old] is left as it is. *)
Lemma ReplaceAll_absent (s : string) :
  Contains s old = false -> ReplaceAll s old (String n "") = s.
Proof.
  induction s as [|c s IH]; [reflexivity|].
  cbn [Contains]. intros H. apply orb_false_elim in H as [H1 H2].
  now rewrite ReplaceAll_cons, H1, (IH H2).
Qed.

End ReplaceByForeignByte.

Lemma sanitizeContent_clean (content : string) :
  Contains (sanitizeContent content) boxTee = false
  /\ Contains (sanitizeContent content) boxDash = false
  /\ Contains (sanitizeContent content) boxCorner = false.
Proof.
  unfold sanitizeContent.
  set (s1 := ReplaceAll content boxTee "|").
  set (s2 := ReplaceAll s1 boxDash "-").
  assert (Contains s1 boxTee = false) as H1
    by (apply ReplaceAll_removes; [discriminate|reflexivity]).
  assert (Contains s2 boxDash = false) as H2
    by (apply ReplaceAll_removes; [discriminate|reflexivity]).
  assert (Contains s2 boxTee = false) as H21.
  { destruct (Contains s2 boxTee) eqn:E; [|reflexivity].
    apply ReplaceAll_Contains in E; [congruence|reflexivity]. }
  repeat split.
  - destruct (Contains (ReplaceAll s2 boxCorner "`") boxTee) eqn:E; [|reflexivity].
    apply ReplaceAll_Contains in E; [congruence|reflexivity].
  - destruct (Contains (ReplaceAll s2 boxCorner "`") boxDash) eqn:E; [|reflexivity].
    apply ReplaceAll_Contains in E; [congruence|reflexivity].
  - apply ReplaceAll_removes; [discriminate|reflexivity].
Qed.

Lemma sanitizeContent_absent (content : string) :
  Contains content boxTee = false ->
  Contains content boxDash = false ->
  Contains content boxCorner = false ->
  sanitizeContent content = content.
Proof.
  intros H1 H2 H3. unfold sanitizeContent.
  now rewrite (ReplaceAll_absent _ _ _ H1), (ReplaceAll_absent _ _ _ H2),
    (ReplaceAll_absent _ _ _ H3).
Qed.

(** X4: the output of [sanitizeContent] holds none of the three box-drawing
    characters it replaces: no replacement brings one of them back. *)
Theorem X4_sanitizeContent_leaves_no_box_drawing (content : string) :
  Contains (sanitizeContent content) boxTee = false
  /\ Contains (sanitizeContent content) boxDash = false
  /\ Contains (sanitizeContent content) boxCorner = false.
Proof. apply sanitizeContent_clean. Qed.

(** X5: [sanitizeContent] leaves a content without the three box-drawing
    characters as it is, and applying it twice is applying it once. *)
Theorem X5_sanitizeContent_idempotent (content : string) :
  (Contains content boxTee = false ->
   Contains content boxDash = false ->
   Contains content boxCorner = false ->
   sanitizeContent content = content)
  /\ sanitizeContent (sanitizeContent content) = sanitizeContent content.
Proof.
  split; [apply sanitizeContent_absent|].
  destruct (sanitizeContent_clean content) as (H1 & H2 & H3).
  now apply sanitizeContent_absent.
Qed.

Lemma X5_witness_ascii_tree_line :
  sanitizeContent "|-- src/" = "|-- src/".
Proof.
  apply (proj1 (X5_sanitizeContent_idempotent "|-- src/")); reflexivity.
Defined.

(** ** What a pattern with a star can match *)

Lemma matchChunkLoop_failed (fuel : nat) :
  forall chunk s t, matchChunkLoop fuel chunk s true <> ChunkRest t.
Proof.
  induction fuel as [|fuel IH]; intros chunk s t; [discriminate|].
  destruct chunk as [|c chunk1]; [discriminate|].
  cbn [matchChunkLoop orb].
  destruct (Ascii.eqb c "[").
  - destruct (classLoop _ _ _ _ _) as [[mtch chunk3]|]; [apply IH|discriminate].
  - destruct (Ascii.eqb c "?"); [apply IH|].
    destruct (Ascii.eqb c "\"); [|apply IH].
    destruct chunk1; [discriminate|apply IH].
Qed.

Lemma scanChunk_literal_head (c : ascii) (g : string) :
  isMeta c = false ->
  exists chunk rest, scanChunk (String c g) = (false, String c chunk, rest).
Proof.
  unfold isMeta. intros H.
  apply orb_false_elim in H as [H H4]. apply orb_false_elim in H as [H H3].
  apply orb_false_elim in H as [H1 H2].
  unfold scanChunk. cbn [dropStars]. rewrite H1.
  cbn [scanBody]. rewrite H4, H3, H1.
  destruct (Ascii.eqb c "]").
  - destruct (scanBody false g) as [chunk rest]. now exists chunk, rest.
  - destruct (scanBody false g) as [chunk rest]. now exists chunk, rest.
Qed.

Lemma matchChunkLoop_literal_head (fuel : nat) (c : ascii) (chunk name t : string) :
  isMeta c = false ->
  matchChunkLoop (S fuel) (String c chunk) name false = ChunkRest t ->
  exists rest, name = String c rest.
Proof.
  unfold isMeta. intros Hc.
  apply orb_false_elim in Hc as [Hc H4]. apply orb_false_elim in Hc as [Hc H3].
  apply orb_false_elim in Hc as [H1 H2].
  cbn [matchChunkLoop]. rewrite H3, H2, H4.
  destruct name as [|d name]; cbn [String.length Nat.eqb orb].
  - intros H. now apply matchChunkLoop_failed in H.
  - destruct (Ascii.eqb_spec c d) as [->|Hne]; [intros _; now exists name|].
    cbn [negb]. intros H. now apply matchChunkLoop_failed in H.
Qed.

Lemma matchLoop_literal_head (fuel : nat) (c : ascii) (g name : string) :
  isMeta c = false ->
  matched (matchLoop (S fuel) (String c g) name) = true ->
  exists rest, name = String c rest.
Proof.
  intros Hc. destruct (scanChunk_literal_head c g Hc) as (chunk & rest & Es).
  cbn [matchLoop]. rewrite Es. cbn [andb].
  destruct (matchChunk (String c chunk) name) as [| |t] eqn:E;
    try discriminate.
  intros _. unfold matchChunk in E. cbn [String.length] in E.
  now apply matchChunkLoop_literal_head in E.
Qed.

(** A glob whose first byte is an ordinary byte matches only names that
    start with that byte. *)
Lemma Match_literal_head (c : ascii) (g name : string) :
  isMeta c = false ->
  matched (Match (String c g) name) = true ->
  exists rest, name = String c rest.
Proof.
  unfold Match. cbn [String.length]. apply matchLoop_literal_head.
Qed.

(** The glob built from a pattern starts with a literal caret, or with a
    literal dot when the pattern starts with a star. *)
Lemma regexPattern_head (pattern : string) :
  Contains pattern "*" = true ->
  exists g, regexPattern pattern = String "^" g \/ regexPattern pattern = String "." g.
Proof.
  intros Hstar. unfold regexPattern.
  destruct (HasPrefix pattern "*") eqn:E; cbn [negb].
  - apply HasPrefix_byte_inv in E as [rest ->].
    unfold ReplaceAll at 3. cbn [replaceScan]. rewrite HasPrefix_byte.
    change (Ascii.eqb "*" ".") with false. cbv iota.
    unfold ReplaceAll at 2. cbn [replaceScan]. rewrite HasPrefix_byte.
    change (Ascii.eqb "*" "*") with true. cbv iota. cbn [append String.length Nat.sub].
    unfold ReplaceAll at 1. cbn [replaceScan]. rewrite HasPrefix_byte.
    change (Ascii.eqb "." "?") with false. cbv iota.
    destruct (negb (HasSuffix (String "*" rest) "*")); cbn [append];
      eexists; right; reflexivity.
  - destruct (negb (HasSuffix pattern "*")); cbn [append];
      eexists; left; reflexivity.
Qed.

(** X6: a pattern that contains a star matches a path only if the path or
    one of its segments starts with a caret or with a dot: the glob handed
    to [filepath.Match] starts with one of these two bytes, taken
    literally. *)
Theorem X6_star_pattern_needs_caret_or_dot (os : OS) (path pattern : string) :
  Contains pattern "*" = true ->
  matchesGitIgnorePattern os path pattern = true ->
  exists name,
    In name (path :: Split path "/")
    /\ (HasPrefix name "^" = true \/ HasPrefix name "." = true).
Proof.
  intros Hstar Hm. rewrite matchesGitIgnorePattern_rules, Hstar in Hm.
  apply andb_prop in Hm as [_ Hm].
  rewrite <- (Contains_TrimSuffix_slash "*") in Hstar by reflexivity.
  destruct (regexPattern_head _ Hstar) as [g Hg].
  assert (forall name,
            matched (Match (regexPattern (TrimSuffix pattern "/")) name) = true ->
            HasPrefix name "^" = true \/ HasPrefix name "." = true) as Hhead.
  { intros name H. destruct Hg as [Hg|Hg]; rewrite Hg in H;
      apply Match_literal_head in H as [rest ->]; try reflexivity;
      rewrite !HasPrefix_byte; auto. }
  unfold wildcardProcedure in Hm. apply orb_prop in Hm as [Hm|Hm].
  - exists path. split; [now left|auto].
  - apply existsb_exists in Hm as (part & Hin & Hpart).
    exists part. split; [now right|auto].
Qed.

Lemma X6_witness_dot_name :
  exists name,
    In name (".a.log$" :: Split ".a.log$" "/")
    /\ (HasPrefix name "^" = true \/ HasPrefix name "." = true).
Proof.
  apply (X6_star_pattern_needs_caret_or_dot sampleOS ".a.log$" "*.log");
    reflexivity.
Defined.

(** ** Names matched at any depth *)

Lemma list_ascii_of_string_app (a b : string) :
  list_ascii_of_string (a ++ b) = (list_ascii_of_string a ++ list_ascii_of_string b)%list.
Proof.
  induction a as [|c a IH]; [reflexivity|]. cbn. now rewrite IH.
Qed.

Lemma Contains_byte_In (x : ascii) (s : string) :
  Contains s (String x "") = false ->
  forall c, In c (list_ascii_of_string s) -> Ascii.eqb c x = false.
Proof.
  induction s as [|d s IH]; [intros _ c []|].
  rewrite Contains_byte_cons. intros H c [<-|Hin];
    apply orb_false_elim in H as [Hd Hs]; auto.
Qed.

Lemma dropSeparators_none (l rest : list ascii) :
  l <> [] ->
  (forall c, In c l -> Ascii.eqb c Separator = false) ->
  dropSeparators (l ++ rest) = (l ++ rest)%list.
Proof.
  destruct l as [|c l]; [congruence|]. intros _ H.
  cbn [app dropSeparators]. now rewrite (H c (or_introl eq_refl)).
Qed.

Lemma upToSeparator_app (l rest : list ascii) :
  (forall c, In c l -> Ascii.eqb c Separator = false) ->
  upToSeparator (l ++ Separator :: rest) = l.
Proof.
  induction l as [|c l IH]; intros H.
  - reflexivity.
  - cbn [app upToSeparator]. rewrite (H c (or_introl eq_refl)).
    f_equal. apply IH. intros d Hd. apply H. now right.
Qed.

(** [filepath.Base] undoes the joining of a directory and a name. *)
Lemma Base_join (dir name : string) :
  name <> "" -> Contains name "/" = false ->
  Base (dir ++ "/" ++ name) = name.
Proof.
  intros Hne Hslash. unfold Base.
  assert (String.eqb (dir ++ "/" ++ name) "" = false) as ->
    by (apply String.eqb_neq; destruct dir; discriminate).
  rewrite !list_ascii_of_string_app. cbn [list_ascii_of_string app].
  rewrite rev_app_distr. cbn [rev]. rewrite <- app_assoc. cbn [app].
  assert (forall c, In c (rev (list_ascii_of_string name)) ->
                    Ascii.eqb c Separator = false) as Hin
    by (intros c Hc; apply in_rev in Hc; revert c Hc;
        now apply Contains_byte_In).
  assert (rev (list_ascii_of_string name) <> []) as Hrev.
  { intros E. apply (f_equal (@rev ascii)) in E. rewrite rev_involutive in E.
    cbn in E. apply (f_equal string_of_list_ascii) in E.
    rewrite string_of_list_ascii_of_string in E. now apply Hne. }
  rewrite dropSeparators_none, upToSeparator_app by assumption.
  rewrite rev_involutive, string_of_list_ascii_of_string.
  apply String.eqb_neq in Hne. now rewrite Hne.
Qed.

Lemma string_app_length (a b : string) :
  String.length (a ++ b) = String.length a + String.length b.
Proof. induction a as [|c a IH]; cbn; auto. Qed.

Lemma sliceFrom_app (a b : string) : sliceFrom (String.length a) (a ++ b) = b.
Proof. induction a as [|c a IH]; [now destruct b|assumption]. Qed.

Lemma sliceTo_app (a b : string) : sliceTo (String.length a) (a ++ b) = a.
Proof.
  induction a as [|c a IH]; [now destruct b|]. cbn. now rewrite IH.
Qed.

Lemma HasSuffix_app (a b : string) : HasSuffix (a ++ b) b = true.
Proof.
  unfold HasSuffix. rewrite string_app_length.
  replace (String.length a + String.length b - String.length b)
    with (String.length a) by lia.
  rewrite sliceFrom_app, String.eqb_refl.
  apply andb_true_intro. split; [apply Nat.leb_le; lia|reflexivity].
Qed.

Lemma TrimSuffix_app (a b : string) : TrimSuffix (a ++ b) b = a.
Proof.
  unfold TrimSuffix. rewrite HasSuffix_app, string_app_length.
  replace (String.length a + String.length b - String.length b)
    with (String.length a) by lia.
  apply sliceTo_app.
Qed.

Lemma HasSuffix_byte_Contains (x : ascii) (s : string) :
  HasSuffix s (String x "") = true -> Contains s (String x "") = true.
Proof.
  intros H. rewrite (HasSuffix_split _ _ H).
  induction (TrimSuffix s (String x "")) as [|c t IH].
  - cbn [append]. rewrite Contains_byte_cons, Ascii.eqb_refl. reflexivity.
  - cbn [append]. rewrite Contains_byte_cons, IH. apply orb_true_r.
Qed.

(** X7: a non-empty pattern without a star and without a slash matches the
    entry of that name at the top and at every depth; followed by a slash it
    matches that entry whenever the path counts as a directory. *)
Theorem X7_name_pattern_matches_at_any_depth (os : OS) (dir name : string) :
  name <> "" ->
  Contains name "*" = false ->
  Contains name "/" = false ->
  matchesGitIgnorePattern os name name = true
  /\ matchesGitIgnorePattern os (dir ++ "/" ++ name) name = true
  /\ (isDir os (dir ++ "/" ++ name) = true ->
      matchesGitIgnorePattern os (dir ++ "/" ++ name) (name ++ "/") = true).
Proof.
  intros Hne Hstar Hslash.
  assert (HasSuffix name "/" = false) as Hsuf.
  { destruct (HasSuffix name "/") eqn:E; [|reflexivity].
    apply HasSuffix_byte_Contains in E. congruence. }
  rewrite !matchesGitIgnorePattern_rules. unfold passesDirOnlyRule.
  rewrite Hstar, Hsuf, (TrimSuffix_id _ _ Hsuf). cbn [andb negb].
  unfold literalProcedure. repeat split.
  - now rewrite String.eqb_refl, orb_true_r.
  - now rewrite (Base_join dir name Hne Hslash), String.eqb_refl.
  - intros Hd. rewrite HasSuffix_app, Hd, TrimSuffix_app.
    rewrite (Contains_byte_app "*" "/") by reflexivity. rewrite Hstar.
    unfold literalProcedure.
    now rewrite (Base_join dir name Hne Hslash), String.eqb_refl.
Qed.

Lemma X7_witness_node_modules :
  matchesGitIgnorePattern sampleOS "node_modules" "node_modules" = true
  /\ matchesGitIgnorePattern sampleOS ("web" ++ "/" ++ "node_modules")
       "node_modules" = true
  /\ (isDir sampleOS ("web" ++ "/" ++ "node_modules") = true ->
      matchesGitIgnorePattern sampleOS ("web" ++ "/" ++ "node_modules")
        ("node_modules" ++ "/") = true).
Proof.
  apply (X7_name_pattern_matches_at_any_depth sampleOS "web" "node_modules");
    [discriminate|reflexivity|reflexivity].
Defined.

(** ** How the ignore set composes *)

Section IgnoreSetProperties.

Variable Rel : string -> string -> error + string.
Variable Join : string -> string -> string.

Lemma getIgnorePatterns_readPewcFile (os : OS) (rootDir : string)
    (noDefaultIgnores : bool) :
  getIgnorePatterns Join os rootDir noDefaultIgnores =
  match snd (readPewcFile Join os rootDir) with
  | Some e => ([], Some e)
  | None =>
    ((if noDefaultIgnores then [] else defaultIgnorePatterns)
     ++ fst (readPewcFile Join os rootDir), None)%list
  end.
Proof.
  unfold getIgnorePatterns.
  destruct (readPewcFile Join os rootDir) as [pewcPatterns [e|]]; cbn [fst snd];
    [reflexivity|].
  now destruct noDefaultIgnores.
Qed.

(** X8: over a concatenation of pattern lists, [isPathIgnored] is the
    disjunction of its results on the parts: adding patterns never makes an
    ignored path visible again. *)
Theorem X8_isPathIgnored_app (os : OS) (path rootDir : string)
    (patterns more : list string) :
  isPathIgnored Rel os path rootDir (patterns ++ more)
  = isPathIgnored Rel os path rootDir patterns
    || isPathIgnored Rel os path rootDir more.
Proof.
  rewrite !isPathIgnored_existsb. apply existsb_app.
Qed.

(** X9: when the built-ins are in use, the resolved ignore set is the
    built-in list followed by what the resolver returns without them, with
    the same error; so a path ignored by the built-ins alone stays ignored
    whatever the rules file holds. *)
Theorem X9_rules_file_cannot_unignore_builtins (os : OS) (rootDir : string) :
  snd (getIgnorePatterns Join os rootDir false)
  = snd (getIgnorePatterns Join os rootDir true)
  /\ (snd (getIgnorePatterns Join os rootDir false) = None ->
      fst (getIgnorePatterns Join os rootDir false)
      = (defaultIgnorePatterns ++ fst (getIgnorePatterns Join os rootDir true))%list
      /\ forall path,
           isPathIgnored Rel os path rootDir defaultIgnorePatterns = true ->
           isPathIgnored Rel os path rootDir
             (fst (getIgnorePatterns Join os rootDir false)) = true).
Proof.
  rewrite !getIgnorePatterns_readPewcFile.
  destruct (snd (readPewcFile Join os rootDir)) as [e|]; cbn [fst snd].
  - split; [reflexivity|discriminate].
  - split; [reflexivity|]. intros _. split; [reflexivity|].
    intros path H. rewrite !isPathIgnored_existsb in *.
    rewrite existsb_app, H. reflexivity.
Qed.

(** X10: every pattern that [readPewcFile] returns is a trimmed line of the
    file, is not empty and does not start with the number sign. *)
Theorem X10_pewc_patterns_are_kept_lines (os : OS) (rootDir content pattern : string) :
  ReadFile os (Join rootDir ".pewc") = inr content ->
  In pattern (fst (readPewcFile Join os rootDir)) ->
  pattern <> ""
  /\ HasPrefix pattern "#" = false
  /\ exists line, In line (Split content LF) /\ pattern = TrimSpace line.
Proof.
  intros Hread. unfold readPewcFile. rewrite Hread. cbn [fst].
  rewrite pewcLoop_filter. cbn [app]. intros H.
  apply filter_In in H as [Hin Hkept].
  unfold keptLine in Hkept. apply andb_prop in Hkept as [H1 H2].
  apply negb_true_iff in H1, H2. apply String.eqb_neq in H1.
  repeat split; try assumption.
  apply in_map_iff in Hin as (line & <- & Hline). now exists line.
Qed.

End IgnoreSetProperties.

Lemma X9_witness_git_directory :
  isPathIgnored relBelow sampleOS "/proj/.git" "/proj"
    (fst (getIgnorePatterns joinName sampleOS "/proj" false)) = true.
Proof.
  apply (proj2 (X9_rules_file_cannot_unignore_builtins relBelow joinName
                  sampleOS "/proj")); reflexivity.
Defined.

Lemma X10_witness_log_pattern :
  "*.log" <> ""
  /\ HasPrefix "*.log" "#" = false
  /\ exists line,
       In line (Split ("# rules" ++ LF ++ "  *.log " ++ LF ++ LF ++ "doc/*.txt" ++ LF) LF)
       /\ "*.log" = TrimSpace line.
Proof.
  apply (X10_pewc_patterns_are_kept_lines joinName sampleOS "/proj"
           ("# rules" ++ LF ++ "  *.log " ++ LF ++ LF ++ "doc/*.txt" ++ LF) "*.log").
  - reflexivity.
  - vm_compute. now left.
Defined.

(** ** The classification of a file *)

Lemma firstn_length_le {A : Type} (n : nat) (l : list A) :
  List.length (firstn n l) <= n.
Proof.
  revert l; induction n as [|n IH]; intros [|x l]; cbn; try lia.
  specialize (IH l). lia.
Qed.

(** X11: what [verifyTextContent] returns.  A file that cannot be opened,
    or whose first [Read] fails, is reported as not text together with the
    error; an empty file is text; any other file is text exactly when its
    first 512 bytes do not begin with a signature, hold at most one zero
    byte and at most 30% of bytes above 127.  Bytes after the first 512 play
    no role. *)
Theorem X11_verifyTextContent_outcome (os : OS) (path : string) :
  verifyTextContent os path =
  match Open os path with
  | inl e => (false, Some (OfOs e))
  | inr (Unreadable e) => (false, Some (OfOs e))
  | inr (Readable content) => (negb (binaryBySpec (firstn 512 content)), None)
  end.
Proof.
  unfold verifyTextContent.
  destruct (Open os path) as [e|[content|e]]; [reflexivity| |reflexivity].
  destruct content as [|b content]; [reflexivity|].
  cbn [Read isEOF]. now rewrite isBinaryContent_binaryBySpec by apply firstn_length_le.
Qed.

(** ** What the traversal returns *)

Section CollectProperties.

Variable ToLower : string -> string.
Variable Rel : string -> string -> error + string.
Variable Join : string -> string -> string.
Variable os : OS.
Variable rootDir : string.
Variable ignorePatterns : list string.

Lemma eligibleFiles_not_ignored (node : Node) :
  forall path file,
    In file (eligibleFiles Join (ignoredBy Rel os rootDir ignorePatterns)
               (classifiedAsText ToLower os) path node) ->
    isPathIgnored Rel os file rootDir ignorePatterns = false.
Proof.
  induction node as [|e|entries IH] using Node_induction; intros path file.
  - cbn [eligibleFiles].
    destruct (ignoredBy Rel os rootDir ignorePatterns path) eqn:E; [intros []|].
    destruct (classifiedAsText ToLower os path); [|intros []].
    now intros [<-|[]].
  - intros [].
  - cbn [eligibleFiles].
    destruct (ignoredBy Rel os rootDir ignorePatterns path); [intros []|].
    intros H. apply in_flat_map in H as ([name [e|child]] & Hin & Hfile);
      cbn [fst snd] in Hfile; [destruct Hfile|].
    rewrite Forall_forall in IH. apply (IH _ Hin _ _ Hfile).
Qed.

(** X12: the list that [collectTextFiles] returns is in increasing
    byte-wise order, on success and on failure (where it is empty). *)
Theorem X12_collectTextFiles_sorted (tree : OsError + Node) :
  Sorted (fun a b => String.leb a b = true)
    (fst (fst (collectTextFiles ToLower Rel Join os rootDir tree ignorePatterns))).
Proof.
  rewrite collectTextFiles_outcome.
  destruct (treeFailure _ _ _ _); cbn [fst]; [constructor|].
  apply sortStrings_Sorted.
Qed.

(** X13: [collectTextFiles] never returns a path that [isPathIgnored]
    ignores under the patterns it was given. *)
Theorem X13_collectTextFiles_returns_no_ignored_path
    (tree : OsError + Node) (file : string) :
  In file (fst (fst (collectTextFiles ToLower Rel Join os rootDir tree
                       ignorePatterns))) ->
  isPathIgnored Rel os file rootDir ignorePatterns = false.
Proof.
  rewrite collectTextFiles_outcome.
  destruct (treeFailure _ _ _ _); cbn [fst]; [intros []|].
  intros H.
  apply (Permutation_in _ (Permutation_sym (sortStrings_Permutation _))) in H.
  destruct tree as [e|node]; [destruct H|].
  now apply (eligibleFiles_not_ignored node rootDir).
Qed.

End CollectProperties.

Lemma X13_witness_readme_not_ignored :
  isPathIgnored relBelow sampleOS "/proj/README.md" "/proj" defaultIgnorePatterns
  = false.
Proof.
  apply (X13_collectTextFiles_returns_no_ignored_path asciiToLower relBelow
           joinName sampleOS "/proj" defaultIgnorePatterns sampleTree
           "/proj/README.md").
  vm_compute. now left.
Defined.

(** ** The markdown of the files *)

Lemma string_app_assoc (a b c : string) : (a ++ b) ++ c = a ++ (b ++ c).
Proof. induction a as [|x a IH]; [reflexivity|]. cbn. now rewrite IH. Qed.

Lemma string_app_nil_r (a : string) : a ++ "" = a.
Proof. induction a as [|x a IH]; [reflexivity|]. cbn. now rewrite IH. Qed.

Lemma lastByte_None (s : string) : lastByte s = None -> s = "".
Proof.
  induction s as [|c s IH]; [reflexivity|]. cbn [lastByte].
  destruct s; [discriminate|]. intros H. now apply IH in H.
Qed.

Lemma lastByte_app (a b : string) :
  lastByte (a ++ b) =
  match lastByte b with
  | Some c => Some c
  | None => lastByte a
  end.
Proof.
  induction a as [|x a IH].
  - cbn [append lastByte]. now destruct (lastByte b).
  - cbn [append]. change (lastByte (String x (a ++ b)))
      with (match a ++ b with "" => Some x | String _ _ => lastByte (a ++ b) end).
    destruct (lastByte b) as [c|] eqn:Eb.
    + destruct (a ++ b) as [|y t] eqn:E; [|now rewrite IH].
      destruct a; [|discriminate]. cbn in E. subst b. discriminate.
    + apply lastByte_None in Eb. subst b. rewrite string_app_nil_r in *.
      reflexivity.
Qed.

Lemma lacksFinalLineFeed_app (a b : string) :
  lacksFinalLineFeed (a ++ b) =
  if String.eqb b "" then lacksFinalLineFeed a else lacksFinalLineFeed b.
Proof.
  unfold lacksFinalLineFeed. rewrite lastByte_app.
  destruct (lastByte b) as [c|] eqn:E.
  - destruct b; [discriminate|reflexivity].
  - apply lastByte_None in E. now subst b.
Qed.

(** The section written for a file does not depend on what the buffer
    held: the test on the last byte of the buffer only ever sees the fence
    line or the content. *)
Lemma writeFileSection_app (buf heading file : string) (content : list byte) :
  writeFileSection buf heading file content
  = buf ++ fileSection heading file content.
Proof.
  unfold writeFileSection, fileSection, terminated.
  set (body := sanitizeFileContent content).
  assert (lacksFinalLineFeed
            ((buf ++ "## " ++ heading ++ LF ++ LF)
             ++ "```" ++ fenceLanguage file ++ LF) = false) as Hfence.
  { rewrite !lacksFinalLineFeed_app.
    assert (String.eqb ("```" ++ fenceLanguage file ++ LF) "" = false) as ->
      by reflexivity.
    assert (String.eqb (fenceLanguage file ++ LF) "" = false) as ->
      by (destruct (fenceLanguage file); reflexivity).
    reflexivity. }
  rewrite (lacksFinalLineFeed_app _ body).
  destruct (String.eqb_spec body "") as [->|Hne].
  - rewrite Hfence. cbn [lacksFinalLineFeed lastByte].
    rewrite !string_app_assoc. reflexivity.
  - destruct (lacksFinalLineFeed body); rewrite !string_app_assoc; reflexivity.
Qed.

Lemma joinAll_app (a b : list string) :
  joinAll (a ++ b) = joinAll a ++ joinAll b.
Proof.
  unfold joinAll. induction a as [|x a IH]; [reflexivity|].
  cbn [app fold_right]. now rewrite IH, string_app_assoc.
Qed.

Section MarkdownProperties.

Variable ToLower : string -> string.
Variable Rel : string -> string -> error + string.
Variable os : OS.

Lemma processFilesLoop_buffer (files : list string) :
  forall buf out,
    fst (processFilesLoop ToLower os files buf out)
    = buf ++ processFilesBody ToLower os files.
Proof.
  unfold processFilesBody.
  induction files as [|file files IH]; intros buf out.
  - cbn. now rewrite string_app_nil_r.
  - cbn [processFilesLoop map joinAll fold_right]. unfold renderedByProcessFiles.
    destruct (isTextFile ToLower os file) as [isText [e|]].
    + rewrite IH. now destruct isText.
    + destruct isText; cbn [negb].
      * destruct (ReadFile os file) as [e|content]; rewrite IH; [reflexivity|].
        now rewrite writeFileSection_app, string_app_assoc.
      * now rewrite IH.
Qed.

Lemma processFiles_markdown (files : list string) :
  fst (fst (processFiles ToLower os files))
  = sourceFilesHeader ++ processFilesBody ToLower os files.
Proof.
  unfold processFiles.
  pose proof (processFilesLoop_buffer files sourceFilesHeader []) as H.
  fold sourceFilesHeader.
  now destruct (processFilesLoop ToLower os files sourceFilesHeader []).
Qed.

(** X14: [processFiles] never returns an error, and the markdown of a
    concatenated list of files is the markdown of the first part followed
    by what the second part adds to the header: a file is rendered the same
    way whatever files come before it. *)
Theorem X14_processFiles_app (files more : list string) :
  snd (fst (processFiles ToLower os (files ++ more))) = None
  /\ fst (fst (processFiles ToLower os (files ++ more)))
     = fst (fst (processFiles ToLower os files))
       ++ sliceFrom (String.length sourceFilesHeader)
            (fst (fst (processFiles ToLower os more))).
Proof.
  split.
  - unfold processFiles. now destruct (processFilesLoop _ _ _ _ _).
  - rewrite !processFiles_markdown, sliceFrom_app.
    unfold processFilesBody. rewrite map_app, joinAll_app.
    now rewrite string_app_assoc.
Qed.

(** X15: what one file contributes.  A file that is classified as text
    without an error and can be read gets a heading with its name, a fence
    tagged with its extension ([text] when it has none), its sanitized
    content ended by a line feed, and the closing fence; any other file
    (classification error, binary content, read error) adds nothing to the
    markdown. *)
Theorem X15_processFiles_single_file (file : string) :
  fst (fst (processFiles ToLower os [file])) =
  sourceFilesHeader
  ++ match renderedByProcessFiles ToLower os file with
     | Some content => fileSection file file (list_byte_of_string content)
     | None => ""
     end.
Proof.
  rewrite processFiles_markdown. unfold processFilesBody.
  cbn [map joinAll fold_right]. now rewrite string_app_nil_r.
Qed.

(** X16: the closing fence of a file section always starts a line: what is
    written before it ends with a line feed, whether the content is empty,
    ends with a line feed or does not. *)
Theorem X16_closing_fence_starts_a_line
    (buf heading file : string) (content : list byte) :
  exists before,
    writeFileSection buf heading file content = before ++ "```" ++ LF ++ LF
    /\ lastByte before = Some (ascii_of_nat 10).
Proof.
  rewrite writeFileSection_app. unfold fileSection.
  exists (buf ++ "## " ++ heading ++ LF ++ LF ++ "```" ++ fenceLanguage file ++ LF
          ++ terminated (sanitizeFileContent content)).
  split; [now rewrite !string_app_assoc|].
  rewrite !lastByte_app. unfold terminated.
  set (body := sanitizeFileContent content).
  unfold lacksFinalLineFeed. destruct (lastByte body) as [c|] eqn:E.
  - destruct (Ascii.eqb_spec c (ascii_of_nat 10)) as [->|Hne]; cbn [negb].
    + now rewrite E.
    + now rewrite lastByte_app.
  - rewrite E. reflexivity.
Qed.

Lemma generateMarkdownLoop_buffer (dumpDir : string) (files : list string) :
  forall buf textFiles out,
    (0 <= textFiles)%Z ->
    fst (fst (generateMarkdownLoop Rel os dumpDir files buf textFiles out))
    = buf ++ generateMarkdownBody Rel os dumpDir files
    /\ (snd (fst (generateMarkdownLoop Rel os dumpDir files buf textFiles out)) =? 0)%Z
       = (textFiles =? 0)%Z
         && forallb (fun file => isNone (renderedByGenerateMarkdown Rel os dumpDir file))
              files.
Proof.
  unfold generateMarkdownBody.
  induction files as [|file files IH]; intros buf textFiles out Hn.
  - cbn. now rewrite string_app_nil_r, andb_true_r.
  - cbn [generateMarkdownLoop map joinAll fold_right forallb].
    unfold renderedByGenerateMarkdown at 1 3.
    destruct (Rel dumpDir file) as [e|relPath].
    + destruct (IH buf textFiles
                  (out ++ [Stderr ("Error getting relative path of " ++ file ++ ": "
                                   ++ errorText e ++ LF)])%list Hn) as [-> ->].
      split; reflexivity.
    + destruct (ReadFile os file) as [e|content].
      * destruct (IH buf textFiles
                    (out ++ [Stderr ("Error reading file " ++ file ++ ": "
                                     ++ errorText (OfOs e) ++ LF)])%list Hn)
          as [-> ->].
        split; reflexivity.
      * destruct (IH (writeFileSection buf relPath file (list_byte_of_string content))
                    (textFiles + 1)%Z out ltac:(lia)) as [-> ->].
        split.
        -- now rewrite writeFileSection_app, string_app_assoc.
        -- cbn [isNone andb].
           assert ((textFiles + 1 =? 0)%Z = false) as -> by (apply Z.eqb_neq; lia).
           now rewrite andb_false_r.
Qed.

(** X17: [generateMarkdown] writes the tree section and the heading of the
    file contents, then one section per file whose relative path can be
    computed and that can be read, in the order given; the note that no
    text files were found is appended exactly when no file was rendered. *)
Theorem X17_generateMarkdown_outcome (dumpDir : string) (files : list string)
    (tree : string) :
  fst (generateMarkdown Rel os dumpDir files tree) =
  directoryHeader tree
  ++ generateMarkdownBody Rel os dumpDir files
  ++ if forallb (fun file => isNone (renderedByGenerateMarkdown Rel os dumpDir file))
          files
     then noTextFilesNote else "".
Proof.
  unfold generateMarkdown.
  assert ((((("# Directory Structure" ++ LF ++ LF) ++ ("```" ++ LF)) ++ tree)
            ++ ("```" ++ LF ++ LF)) ++ ("# File Contents" ++ LF ++ LF)
          = directoryHeader tree) as ->
    by (unfold directoryHeader; now rewrite !string_app_assoc).
  destruct (generateMarkdownLoop_buffer dumpDir files (directoryHeader tree) 0 []
              ltac:(lia)) as [Hbuf Hcount].
  destruct (generateMarkdownLoop Rel os dumpDir files (directoryHeader tree) 0 [])
    as [[buf textFiles] out].
  cbn [fst snd] in *. rewrite Hcount. cbn [Z.eqb andb]. subst buf.
  destruct (forallb _ files); cbn [fst].
  - now rewrite string_app_assoc.
  - now rewrite string_app_nil_r.
Qed.

End MarkdownProperties.

(** ** The directory tree *)

Lemma insertByName_In (x y : Visible) (l : list Visible) :
  In y (insertByName x l) <-> y = x \/ In y l.
Proof.
  induction l as [|z l IH]; cbn [insertByName].
  - cbn. intuition.
  - destruct (String.ltb (vName x) (vName z)); cbn [In]; [intuition|].
    rewrite IH. intuition.
Qed.

Lemma sortByName_In (y : Visible) (l : list Visible) :
  In y (sortByName l) <-> In y l.
Proof.
  induction l as [|x l IH]; [reflexivity|].
  cbn [sortByName In]. rewrite insertByName_In, IH. intuition.
Qed.

Lemma existsb_sortByName (f : Visible -> bool) (l : list Visible) :
  existsb f (sortByName l) = existsb f l.
Proof.
  destruct (existsb f l) eqn:E.
  - apply existsb_exists in E as (x & Hin & Hx). apply existsb_exists.
    exists x. split; [now apply sortByName_In|assumption].
  - destruct (existsb f (sortByName l)) eqn:E'; [|reflexivity].
    apply existsb_exists in E' as (x & Hin & Hx).
    apply (proj1 (sortByName_In _ _)) in Hin.
    assert (existsb f l = true) by (apply existsb_exists; now exists x).
    congruence.
Qed.

Lemma filter_map_commute {A B : Type} (f : A -> B) (p : B -> bool) (l : list A) :
  filter p (map f l) = map f (filter (fun x => p (f x)) l).
Proof.
  induction l as [|x l IH]; [reflexivity|]. cbn [map filter].
  destruct (p (f x)); cbn [map]; now rewrite IH.
Qed.

Lemma filter_idempotent {A : Type} (p : A -> bool) (l : list A) :
  filter p (filter p l) = filter p l.
Proof.
  induction l as [|x l IH]; [reflexivity|]. cbn [filter].
  destruct (p x) eqn:E; [|assumption]. cbn [filter]. now rewrite E, IH.
Qed.

Section TreeProperties.

Variable Rel : string -> string -> error + string.
Variable Join : string -> string -> string.
Variable os : OS.
Variable rootDir : string.
Variable ignorePatterns : list string.

Abbreviation visibleIn dir :=
  (fun file : string * Listed =>
     negb (isPathIgnored Rel os (Join dir (fst file)) rootDir ignorePatterns)).
Abbreviation printer := (printListed Rel Join os rootDir ignorePatterns).
Abbreviation visibleOf files :=
  (map (fun file : string * Listed =>
          {| vName := fst file; vEntry := snd file; vPrint := printer (snd file) |})
     files).

(** X18: [printDir] neither prints nor reads an ignored entry: its result
    on a listing is its result on the listing without the ignored entries,
    whatever lies below them; a directory whose entries are all ignored
    adds nothing to the buffer. *)
Theorem X18_printDir_skips_ignored_entries
    (files : list (string * Listed)) (dir prefix buf : string) :
  printDir Rel Join os rootDir ignorePatterns (inr files) dir prefix buf
  = printDir Rel Join os rootDir ignorePatterns
      (inr (filter (visibleIn dir) files)) dir prefix buf
  /\ (filter (visibleIn dir) files = [] ->
      printDir Rel Join os rootDir ignorePatterns (inr files) dir prefix buf
      = (buf, None)).
Proof.
  unfold printDir, printDirWith.
  rewrite !(filter_map_commute
              (fun file : string * Listed =>
                 {| vName := fst file; vEntry := snd file;
                    vPrint := printer (snd file) |})).
  cbn [vName]. rewrite filter_idempotent. split; [reflexivity|].
  now intros ->.
Qed.

Lemma printLoop_appends (dir prefix : string) (visibleFiles : list Visible) :
  Forall (fun file => forall d p b,
            vPrint file d p b
            = (b ++ fst (vPrint file d p ""), snd (vPrint file d p "")))
    visibleFiles ->
  forall buf,
    printLoop Join dir prefix visibleFiles buf
    = (buf ++ fst (printLoop Join dir prefix visibleFiles ""),
       snd (printLoop Join dir prefix visibleFiles "")).
Proof.
  induction 1 as [|file rest Hfile _ IH]; intros buf.
  - cbn. now rewrite string_app_nil_r.
  - cbn [printLoop append].
    set (line := prefix ++ (if (List.length rest =? 0) then "`-- " else "|-- ")
                 ++ vName file).
    destruct (listedIsDir (vEntry file)).
    + rewrite (Hfile _ _ ((buf ++ line) ++ "/" ++ LF)).
      rewrite (Hfile _ _ (line ++ "/" ++ LF)).
      destruct (vPrint file _ _ "") as [added [e|]]; cbn [fst snd].
      * now rewrite !string_app_assoc.
      * rewrite (IH (((buf ++ line) ++ "/" ++ LF) ++ added)).
        rewrite (IH ((line ++ "/" ++ LF) ++ added)). cbn [fst snd].
        now rewrite !string_app_assoc.
    + rewrite (IH ((buf ++ line) ++ LF)), (IH (line ++ LF)). cbn [fst snd].
      now rewrite !string_app_assoc.
Qed.

Lemma visible_Forall (Q : Printer -> Prop) (dir : string)
    (files : list (string * Listed)) :
  Forall (fun file => Q (printer (snd file))) files ->
  Forall (fun file => Q (vPrint file))
    (sortByName
       (filter (fun file =>
                  negb (isPathIgnored Rel os (Join dir (vName file)) rootDir
                          ignorePatterns))
          (visibleOf files))).
Proof.
  intros H. apply Forall_forall. intros v Hv.
  apply sortByName_In, filter_In in Hv as [Hv _].
  apply in_map_iff in Hv as (file & <- & Hfile).
  rewrite Forall_forall in H. apply (H file Hfile).
Qed.

Lemma printListed_appends (entry : Listed) :
  forall dir prefix buf,
    printer entry dir prefix buf
    = (buf ++ fst (printer entry dir prefix ""),
       snd (printer entry dir prefix "")).
Proof.
  induction entry as [|e|files IH] using Listed_induction; intros dir prefix buf.
  - cbn. now rewrite string_app_nil_r.
  - cbn. now rewrite string_app_nil_r.
  - cbn [printListed]. unfold printDirWith.
    destruct (List.length _ =? 0); [cbn; now rewrite string_app_nil_r|].
    apply printLoop_appends.
    apply (visible_Forall
             (fun print => forall d p b,
                print d p b = (b ++ fst (print d p ""), snd (print d p "")))).
    assumption.
Qed.

(** X19: [printDir] only appends to the buffer, and what it appends and
    the error it returns do not depend on what the buffer held; the result
    of [generateTree] therefore starts with the line of the root, on
    success and on failure. *)
Theorem X19_printDir_appends
    (readDir : OsError + list (string * Listed)) (dir prefix buf : string) :
  printDir Rel Join os rootDir ignorePatterns readDir dir prefix buf
  = (buf ++ fst (printDir Rel Join os rootDir ignorePatterns readDir dir prefix ""),
     snd (printDir Rel Join os rootDir ignorePatterns readDir dir prefix ""))
  /\ exists below,
       fst (generateTree Rel Join os rootDir ignorePatterns readDir)
       = Base rootDir ++ "/" ++ LF ++ below.
Proof.
  assert (forall b,
            printDir Rel Join os rootDir ignorePatterns readDir dir prefix b
            = (b ++ fst (printDir Rel Join os rootDir ignorePatterns readDir
                           dir prefix ""),
               snd (printDir Rel Join os rootDir ignorePatterns readDir
                      dir prefix ""))) as Happ
    by (intros b; apply (printListed_appends (ListedDir readDir))).
  split; [apply Happ|].
  unfold generateTree.
  pose proof (printListed_appends (ListedDir readDir) rootDir ""
                (Base rootDir ++ "/" ++ LF)) as H.
  change (printer (ListedDir readDir))
    with (printDir Rel Join os rootDir ignorePatterns readDir) in H.
  rewrite H.
  set (r := printDir Rel Join os rootDir ignorePatterns readDir rootDir "" "").
  exists (fst r).
  destruct (snd r); cbn [fst]; now rewrite !string_app_assoc.
Qed.

Lemma printLoop_failure (dir prefix : string) (visibleFiles : list Visible) :
  Forall (fun file =>
            listedIsDir (vEntry file) = true ->
            forall d p b,
              isNone (snd (vPrint file d p b))
              = negb (unreadableBelow Rel Join os rootDir ignorePatterns d
                        (vEntry file)))
    visibleFiles ->
  forall buf,
    isNone (snd (printLoop Join dir prefix visibleFiles buf))
    = negb (existsb
              (fun file =>
                 listedIsDir (vEntry file)
                 && unreadableBelow Rel Join os rootDir ignorePatterns
                      (Join dir (vName file)) (vEntry file))
              visibleFiles).
Proof.
  induction 1 as [|file rest Hfile _ IH]; intros buf; [reflexivity|].
  cbn [printLoop existsb].
  destruct (listedIsDir (vEntry file)); cbn [andb orb]; [|apply IH].
  specialize (Hfile eq_refl (Join dir (vName file))
                (if List.length rest =? 0 then prefix ++ "    " else prefix ++ "|   ")
                ((buf ++ prefix ++ (if List.length rest =? 0 then "`-- " else "|-- ")
                  ++ vName file) ++ "/" ++ LF)).
  destruct (vPrint file _ _ _) as [buf' [e|]]; cbn [snd isNone] in *.
  - now destruct (unreadableBelow _ _ _ _ _ _ _).
  - destruct (unreadableBelow _ _ _ _ _ _ _); [discriminate|].
    cbn [orb]. apply IH.
Qed.

Lemma printListed_failure (entry : Listed) :
  forall dir prefix buf,
    isNone (snd (printer entry dir prefix buf))
    = negb (unreadableBelow Rel Join os rootDir ignorePatterns dir entry)
    \/ entry = ListedFile.
Proof.
  induction entry as [|e|files IH] using Listed_induction; intros dir prefix buf;
    [now right|now left|left].
  cbn [printListed unreadableBelow]. unfold printDirWith.
  set (visibleFiles := filter _ (visibleOf files)).
  assert (existsb
            (fun file =>
               listedIsDir (vEntry file)
               && unreadableBelow Rel Join os rootDir ignorePatterns
                    (Join dir (vName file)) (vEntry file))
            visibleFiles
          = existsb
              (fun file =>
                 visibleIn dir file && listedIsDir (snd file)
                 && unreadableBelow Rel Join os rootDir ignorePatterns
                      (Join dir (fst file)) (snd file))
              files) as Hspec.
  { unfold visibleFiles. clear. induction files as [|file files IHf]; [reflexivity|].
    cbn [map filter existsb vName].
    destruct (isPathIgnored Rel os (Join dir (fst file)) rootDir ignorePatterns);
      cbn [negb andb orb existsb vName vEntry]; now rewrite IHf. }
  rewrite <- Hspec.
  destruct (List.length visibleFiles =? 0) eqn:E.
  - apply Nat.eqb_eq in E. destruct visibleFiles; [reflexivity|discriminate].
  - rewrite printLoop_failure, existsb_sortByName; [reflexivity|].
    apply Forall_forall. intros v Hv.
    apply (proj1 (sortByName_In _ _)) in Hv. apply filter_In in Hv as [Hv _].
    apply in_map_iff in Hv as (file & <- & Hfile). cbn [vPrint vEntry].
    rewrite Forall_forall in IH. intros Hd d p b.
    destruct (IH file Hfile d p b) as [H|H]; [assumption|].
    rewrite H in Hd. discriminate.
Qed.

(** X20: [generateTree] fails exactly when some directory that is visible
    from the root down (not ignored, and below no ignored directory) cannot
    be read; an unreadable directory that is ignored does no harm. *)
Theorem X20_generateTree_fails_iff_unreadable_visible_directory
    (readDir : OsError + list (string * Listed)) :
  snd (generateTree Rel Join os rootDir ignorePatterns readDir) = None
  <-> unreadableBelow Rel Join os rootDir ignorePatterns rootDir
        (ListedDir readDir) = false.
Proof.
  unfold generateTree.
  destruct (printListed_failure (ListedDir readDir) rootDir ""
              (Base rootDir ++ "/" ++ LF)) as [H|H]; [|discriminate].
  change (printer (ListedDir readDir))
    with (printDir Rel Join os rootDir ignorePatterns readDir) in H.
  destruct (printDir Rel Join os rootDir ignorePatterns readDir rootDir ""
              (Base rootDir ++ "/" ++ LF)) as [buf [e|]]; cbn [snd isNone] in *.
  - destruct (unreadableBelow _ _ _ _ _ _ _); [|discriminate].
    split; discriminate.
  - destruct (unreadableBelow _ _ _ _ _ _ _); [discriminate|].
    split; reflexivity.
Qed.

End TreeProperties.

Example generateTree_sample :
  generateTree relBelow joinName sampleOS "/proj" ["build"] sampleListing
  = ("proj/" ++ LF ++ "|-- README.md" ++ LF ++ "`-- src/" ++ LF
     ++ "    |-- lib.x" ++ LF ++ "    `-- main.x" ++ LF, None).
Proof. reflexivity. Qed.

Lemma X18_witness_all_ignored :
  printDir relBelow joinName sampleOS "/proj" ["README.md"; "build"; "src"]
    sampleListing "/proj" "" "proj/"
  = ("proj/", None).
Proof.
  apply (proj2 (X18_printDir_skips_ignored_entries relBelow joinName sampleOS
                  "/proj" ["README.md"; "build"; "src"] _ "/proj" "" "proj/")).
  reflexivity.
Defined.

Lemma X20_witness_ignored_unreadable_directory :
  snd (generateTree relBelow joinName sampleOS "/proj" ["build"] sampleListing)
  = None.
Proof.
  apply (proj2 (X20_generateTree_fails_iff_unreadable_visible_directory
                  relBelow joinName sampleOS "/proj" ["build"] sampleListing)).
  reflexivity.
Defined.

Example processFiles_sample :
  processFiles asciiToLower markdownOS ["a.bin"; "main.go"; "gone.txt"]
  = (("# Source Code Files" ++ LF ++ LF
      ++ "## main.go" ++ LF ++ LF
      ++ "```go" ++ LF ++ "package main" ++ LF ++ "```" ++ LF ++ LF, None),
     [Stdout ("Skipping binary file: a.bin" ++ LF);
      Stderr ("Warning: Could not check file type of gone.txt: "
              ++ "open gone.txt: no such file or directory" ++ LF)]).
Proof. reflexivity. Qed.

Example generateMarkdown_no_files :
  fst (generateMarkdown relBelow markdownOS "/proj" ["/proj/gone.txt"] ("proj/" ++ LF))
  = "# Directory Structure" ++ LF ++ LF ++ "```" ++ LF ++ "proj/" ++ LF
    ++ "```" ++ LF ++ LF ++ "# File Contents" ++ LF ++ LF
    ++ "No text files found in the directory." ++ LF.
Proof. reflexivity. Qed.
